(** * k6provider: a shallow embedding of provider.go

    The development follows the Go source function by function.  Go maps
    are finite maps ([gmap]) together with the order in which a [range]
    statement happens to enumerate them; Go errors are trees of wrapped
    errors; the file system is explicit state, and the answers of the
    operating system, of the build service and of the HTTP client are
    explicit outcomes.  Every call the code makes on a collaborator is
    recorded in a log, so that statements of the form "no request is
    issued" or "nothing is written" can be read off the final state. *)

From Stdlib Require Import ZArith NArith Ascii String.
From stdpp Require Import base option list strings gmap fin_maps.

(** ** Go maps and the [range] statement *)

Module GoMap.

(** A Go map value: [None] is the nil map, [Some m] an allocated one. *)
Definition t (V : Type) : Type := option (gmap string V).

Definition entries {V} (m : t V) : list (string * V) :=
  match m with
  | None => []
  | Some g => map_to_list g
  end.

Definition get {V} (m : t V) (k : string) : option V :=
  match m with
  | None => None
  | Some g => g !! k
  end.

(** The Go specification leaves the iteration order of a map open, and it
    need not be the same from one loop to the next.  A [RangeOrder] is the
    choice the runtime makes for one loop: a rearrangement of the entries
    that neither drops nor repeats any. *)
Record RangeOrder := {
  order : ∀ V : Type, list (string * V) → list (string * V);
  order_perm : ∀ V (l : list (string * V)), order V l ≡ₚ l
}.

(** The sequence of entries that [for k, v := range m] visits. *)
Definition range {V} (r : RangeOrder) (m : t V) : list (string * V) :=
  order r V (entries m).

End GoMap.

(** ** Errors *)

Module errors.

(** The package's five [errors.New] values; Go compares them by identity. *)
Inductive sentinel :=
| ErrBinary | ErrBuild | ErrConfig | ErrDependency | ErrDownload.

(** Error values that reach this package.  [Foreign] is an error made by a
    collaborator (build service client, HTTP transport, URL parser);
    [PathError] is what the [os] functions return. *)
Inductive error :=
| New (s : sentinel)
| Foreign (msg : string)
| PathError (op path : string) (errno : Z)
| Errorf_ww (e1 e2 : error)      (* fmt.Errorf("%w: %w", e1, e2) *)
| Errorf_ws (e : error) (s : string). (* fmt.Errorf("%w: %s", e, s) *)

End errors.

Import errors.

#[global] Instance sentinel_eq_dec : EqDecision sentinel.
Proof. solve_decision. Defined.

#[global] Instance error_eq_dec : EqDecision error.
Proof. solve_decision. Defined.

(** [errors.Is err target] for a sentinel target: the target is found
    somewhere in the tree of wrapped errors. *)
Fixpoint errors_Is (err : error) (target : sentinel) : bool :=
  match err with
  | New s => bool_decide (s = target)
  | Foreign _ => false
  | PathError _ _ _ => false
  | Errorf_ww e1 e2 => errors_Is e1 target || errors_Is e2 target
  | Errorf_ws e _ => errors_Is e target
  end.

Module syscall.

Definition ENOENT : Z := 2.
Definition EIO : Z := 5.
Definition EACCES : Z := 13.
Definition EBUSY : Z := 16.
Definition ENOTDIR : Z := 20.
Definition EISDIR : Z := 21.
Definition EINVAL : Z := 22.
Definition ENOSPC : Z := 28.

Definition S_IRWXU : Z := 448.
Definition S_IRUSR : Z := 256.
Definition S_IWUSR : Z := 128.
Definition S_IXUSR : Z := 64.

Definition O_WRONLY : Z := 1.
Definition O_CREATE : Z := 64.

End syscall.

(** [os.IsNotExist]: the underlying errno is ENOENT. *)
Definition os_IsNotExist (err : error) : bool :=
  match err with
  | PathError _ _ errno => bool_decide (errno = syscall.ENOENT)
  | _ => false
  end.

(** ** The collaborators' data types *)

Module k6deps.

(** [k6deps.Dependency].  [Constraints] holds the canonical string that
    [dep.GetConstraints().String()] yields; the constraint parser is not
    part of this package. *)
Record Dependency := {
  Name : string;
  Constraints : string
}.

(** [k6deps.Dependencies] is [map[string]*Dependency], keyed by name. *)
Definition Dependencies : Type := GoMap.t Dependency.

(** The invariant k6deps maintains: every entry is stored under its name. *)
Definition keyedByName (deps : Dependencies) : Prop :=
  Forall (λ kv, Name kv.2 = kv.1) (GoMap.entries deps).

End k6deps.

Module k6build.

Record Dependency := {
  Name : string;
  Constraints : string
}.

Record Artifact := {
  ID : string;
  URL : string;
  Dependencies : GoMap.t string;
  Checksum : string
}.

(** The [Build] method of [k6build.BuildService], as the remote service
    answers it during one call: platform, k6 constraint and dependencies
    in, an artifact or an error out. *)
Definition BuildService : Type :=
  string → string → list Dependency → Artifact + error.

End k6build.

#[global] Instance k6build_Dependency_eq_dec : EqDecision k6build.Dependency.
Proof. solve_decision. Defined.

#[global] Instance k6deps_Dependency_eq_dec : EqDecision k6deps.Dependency.
Proof. solve_decision. Defined.

Definition k6Binary : string := "k6".
Definition k6Module : string := "k6".

(** ** K6Binary and UnmarshalDeps *)

Record K6Binary := {
  Path : string;
  Dependencies : GoMap.t string;
  Checksum : string
}.

(** The zero value [K6Binary{}]. *)
Definition K6Binary_zero : K6Binary :=
  {| Path := ""; Dependencies := None; Checksum := "" |}.

Module strconv.

Definition dquote : ascii := ascii_of_N 34.
Definition backslash : ascii := ascii_of_N 92.

Definition str (c : ascii) : string := String c EmptyString.

Definition lowerhex (n : N) : ascii :=
  default "0"%char (list_ascii_of_string "0123456789abcdef" !! N.to_nat n).

(** appendEscapedRune for a rune below utf8.RuneSelf, with the double
    quote as quote character. *)
Definition escapeASCII (c : ascii) : string :=
  let r := N_of_ascii c in
  if bool_decide (c = dquote) || bool_decide (c = backslash) then
    String backslash (str c)
  else if (32 <=? r)%N && (r <? 127)%N then
    str c
  else
    match r with
    | 7%N => String backslash "a"
    | 8%N => String backslash "b"
    | 12%N => String backslash "f"
    | 10%N => String backslash "n"
    | 13%N => String backslash "r"
    | 9%N => String backslash "t"
    | 11%N => String backslash "v"
    | _ => String backslash
             (String "x" (String (lowerhex (r / 16)) (str (lowerhex (r mod 16)))))
    end.

Section Quote.

(** For a string that starts with a byte of 0x80 or more: the text that
    [appendQuotedWith] emits for its first rune and the number of bytes the
    rune occupies.  It depends on UTF-8 decoding and on the Unicode tables
    of the Go library, which are taken as given. *)
Variable escapeMultibyte : string → string * nat.

(** The loop of [appendQuotedWith]; [skip] counts the bytes of a rune that
    has already been emitted. *)
Fixpoint quoteLoop (skip : nat) (s : string) : string :=
  match s with
  | EmptyString => EmptyString
  | String c rest =>
      match skip with
      | S k => quoteLoop k rest
      | O =>
          if (N_of_ascii c <? 128)%N then
            escapeASCII c +:+ quoteLoop 0 rest
          else
            let '(out, width) := escapeMultibyte s in
            out +:+ quoteLoop (pred width) rest
      end
  end.

(** [strconv.Quote], which is what the verb %q of [fmt] prints for a
    string. *)
Definition Quote (s : string) : string :=
  String dquote (quoteLoop 0 s +:+ str dquote).

(** The loop body of [UnmarshalDeps]:
    [buffer.WriteString(fmt.Sprintf("%s:%q;", dep, version))]. *)
Definition UnmarshalDeps_body (buffer : string) (kv : string * string) : string :=
  let '(dep, version) := kv in
  buffer +:+ (dep +:+ ":" +:+ Quote version +:+ ";").

End Quote.

End strconv.

(** [b.UnmarshalDeps()]: the loop over [range b.Dependencies]. *)
Definition UnmarshalDeps (escapeMultibyte : string → string * nat)
    (r : GoMap.RangeOrder) (b : K6Binary) : string :=
  fold_left (strconv.UnmarshalDeps_body escapeMultibyte)
            (GoMap.range r (Dependencies b)) "".

(** ** buildDeps *)

(** One iteration of the loop body of [buildDeps]. *)
Definition buildDeps_body (acc : string * list k6build.Dependency)
    (dep : k6deps.Dependency) : string * list k6build.Dependency :=
  let '(k6constraint, bdeps) := acc in
  if decide (k6deps.Name dep = k6Module) then
    (k6deps.Constraints dep, bdeps)
  else
    (k6constraint,
     bdeps ++ [ {| k6build.Name := k6deps.Name dep;
                   k6build.Constraints := k6deps.Constraints dep |} ]).

(** [buildDeps deps]: the loop runs over the values of [range deps]. *)
Definition buildDeps (r : GoMap.RangeOrder) (deps : k6deps.Dependencies)
    : string * list k6build.Dependency :=
  fold_left buildDeps_body ((GoMap.range r deps).*2) ("*"%string, []).

(** Vocabulary for the statements about [buildDeps]. *)
Definition isPrimary (dep : k6deps.Dependency) : Prop :=
  k6deps.Name dep = k6Module.

#[global] Instance isPrimary_dec dep : Decision (isPrimary dep).
Proof. unfold isPrimary. apply _. Defined.

Definition toBuildDependency (dep : k6deps.Dependency) : k6build.Dependency :=
  {| k6build.Name := k6deps.Name dep;
     k6build.Constraints := k6deps.Constraints dep |}.

Definition auxiliaryOf (ds : list k6deps.Dependency) : list k6build.Dependency :=
  toBuildDependency <$> filter (λ d, ¬ isPrimary d) ds.

Definition primaryOf (ds : list k6deps.Dependency) : string :=
  default "*"%string (last (k6deps.Constraints <$> filter isPrimary ds)).

(** ** path/filepath on a Unix system *)

Module filepath.

(** [strings.Split(s, "/")]. *)
Fixpoint Split (s : string) : list string :=
  match s with
  | EmptyString => [EmptyString]
  | String c rest =>
      if bool_decide (c = "/"%char) then EmptyString :: Split rest
      else
        match Split rest with
        | e :: es => String c e :: es
        | [] => [String c EmptyString]
        end
  end.

(** The element scan of [Clean]; [out] is the output so far, last element
    first. *)
Fixpoint cleanElems (rooted : bool) (out : list string) (elems : list string)
    : list string :=
  match elems with
  | [] => reverse out
  | e :: rest =>
      if bool_decide (e = ""%string) || bool_decide (e = "."%string) then
        cleanElems rooted out rest
      else if bool_decide (e = ".."%string) then
        match out with
        | top :: below =>
            if bool_decide (top = ".."%string)
            then cleanElems rooted (e :: out) rest
            else cleanElems rooted below rest
        | [] =>
            if rooted then cleanElems rooted [] rest
            else cleanElems rooted [e] rest
        end
      else cleanElems rooted (e :: out) rest
  end.

Definition isRooted (path : string) : bool :=
  match path with
  | String c _ => bool_decide (c = "/"%char)
  | EmptyString => false
  end.

Definition render (rooted : bool) (elems : list string) : string :=
  if rooted then "/" +:+ String.concat "/" elems
  else match elems with
       | [] => "."
       | _ => String.concat "/" elems
       end.

Definition Clean (path : string) : string :=
  render (isRooted path) (cleanElems (isRooted path) [] (Split path)).

(** [filepath.Join]: leading empty elements are dropped, the rest is
    joined by the separator and cleaned. *)
Fixpoint Join (elem : list string) : string :=
  match elem with
  | [] => ""%string
  | e :: rest =>
      if bool_decide (e = ""%string) then Join rest
      else Clean (String.concat "/" elem)
  end.

(** The directories above a cleaned path, outermost first, the path itself
    last: what [os.MkdirAll] walks through. *)
Definition upTo (path : string) : list string :=
  let elems := cleanElems (isRooted path) [] (Split path) in
  (λ n, render (isRooted path) (take n elems)) <$> seq 1 (length elems).

(** The directories strictly above a cleaned path; the root and the
    current directory, which always exist, are not listed. *)
Definition ancestors (path : string) : list string :=
  removelast (upTo path).

(** [inside dir path]: the cleaned [path] is [dir] or lies below it. *)
Definition inside (dir path : string) : bool :=
  bool_decide (path = dir)
  || String.prefix (if bool_decide (dir = "/"%string) then dir else dir +:+ "/") path.

End filepath.

(** ** The file system and the outside world *)

(** What exists at a path.  [perm] is the mode the entry was created
    with; the process umask is left out. *)
Inductive Node :=
| Dir (perm : Z)
| File (perm : Z) (data : string).

(** [http.Client] values the provider can hold. *)
Inductive Client :=
| DefaultClient
| ProxyClient (proxy : string).

Record Response := {
  StatusCode : Z;
  (** the bytes that can be read from the body ... *)
  Body : string;
  (** ... and the error, if any, that ends the stream instead of EOF *)
  BodyErr : option error
}.

(** Every call on a collaborator, in program order.  [EvCopy path data] is
    the transfer [io.Copy] makes of the bytes [data] into the file at
    [path], in as many writes as its buffer takes; a body without bytes
    gives no transfer. *)
Inductive Event :=
| EvBuild (platform k6Constrains : string) (deps : list k6build.Dependency)
| EvStat (path : string)
| EvMkdirAll (path : string) (perm : Z)
| EvOpenFile (path : string) (flag perm : Z)
| EvNewRequest (url : string)
| EvDo (c : Client) (url : string)
| EvCopy (path : string) (data : string)
| EvBodyClose (url : string)
| EvRemoveAll (path : string)
| EvClose (path : string).

(** The state a call runs in: the files and directories that exist, keyed
    by cleaned path, and the log of calls made so far. *)
Record State := {
  fs : gmap string Node;
  log : list Event
}.

(** How the world outside answers during one call.  A system call on a
    path fails with the errno given here (permission denied, I/O error,
    ...) and otherwise behaves as the file system state dictates; the
    context's cancellation shows up as a failing request or copy. *)
Record Outside := {
  stat_err : string → option Z;
  mkdir_err : string → option Z;
  open_err : string → option Z;
  write_err : string → option Z;
  (** how many bytes of a copy reach the file before a refused write *)
  write_done : string → nat;
  unlink_err : string → option Z;
  (** [http.NewRequestWithContext(ctx, GET, url, nil)] *)
  newRequest_err : string → option error;
  (** [client.Do(req)] *)
  roundTrip : Client → string → Response + error
}.

(** Computations that read the outside world and thread the state. *)
Definition M (A : Type) : Type := Outside → State → A * State.

Definition ret {A} (a : A) : M A := λ _ st, (a, st).

Definition bind {A B} (m : M A) (k : A → M B) : M B :=
  λ out st, let '(a, st') := m out st in k a out st'.

Definition emit (e : Event) : M unit :=
  λ _ st, (tt, {| fs := fs st; log := log st ++ [e] |}).

Definition ask : M Outside := λ out st, (out, st).

Definition getFS : M (gmap string Node) := λ _ st, (fs st, st).

Definition putFS (f : gmap string Node) : M unit :=
  λ _ st, (tt, {| fs := f; log := log st |}).

#[global] Instance M_ret : MRet M := @ret.
#[global] Instance M_bind : MBind M := λ A B k m, bind m k.

Definition isFile (f : gmap string Node) (path : string) : bool :=
  match f !! path with
  | Some (File _ _) => true
  | _ => false
  end.

(** The directory a new entry at [path] goes into is there. *)
Definition parentExists (f : gmap string Node) (path : string) : bool :=
  match last (filepath.ancestors path) with
  | None => true
  | Some d => match f !! d with
              | Some (Dir _) => true
              | _ => false
              end
  end.

(** [os.Stat(path)], reduced to its error result: a regular file where a
    directory should be is ENOTDIR, a missing entry is ENOENT. *)
Definition os_Stat (path : string) : M (option error) :=
  emit (EvStat path) ;;
  out ← ask;
  f ← getFS;
  match stat_err out path with
  | Some errno => ret (Some (PathError "stat" path errno))
  | None =>
      if existsb (isFile f) (filepath.ancestors path) then
        ret (Some (PathError "stat" path syscall.ENOTDIR))
      else
        match f !! path with
        | Some _ => ret None
        | None => ret (Some (PathError "stat" path syscall.ENOENT))
        end
  end.

Definition mkdirOne (perm : Z) (f : gmap string Node) (path : string)
    : gmap string Node :=
  match f !! path with
  | Some _ => f
  | None => <[path := Dir perm]> f
  end.

(** The directories of [os.MkdirAll], outermost first: one that is there
    is passed, a regular file in its place is ENOTDIR, a missing one is
    made with [os.Mkdir], which the system may refuse.  The first failure
    ends the walk and is returned; the directories made before it stay. *)
Fixpoint mkdirChain (out : Outside) (perm : Z) (dirs : list string)
    (f : gmap string Node) : option error * gmap string Node :=
  match dirs with
  | [] => (None, f)
  | d :: rest =>
      match f !! d with
      | Some (Dir _) => mkdirChain out perm rest f
      | Some (File _ _) => (Some (PathError "mkdir" d syscall.ENOTDIR), f)
      | None =>
          match mkdir_err out d with
          | Some errno => (Some (PathError "mkdir" d errno), f)
          | None => mkdirChain out perm rest (<[d := Dir perm]> f)
          end
      end
  end.

(** [os.MkdirAll(path, perm)]: the empty path cannot be made; otherwise
    the missing parents and then the path are made one by one, and a
    failure on the way leaves the parents already made in place. *)
Definition os_MkdirAll (path : string) (perm : Z) : M (option error) :=
  emit (EvMkdirAll path perm) ;;
  out ← ask;
  f ← getFS;
  if bool_decide (path = ""%string) then
    ret (Some (PathError "mkdir" path syscall.ENOENT))
  else
    let made := mkdirChain out perm (filepath.upTo path) f in
    putFS made.2 ;;
    ret made.1.

(** [os.OpenFile(path, O_WRONLY|O_CREATE, perm)]; the handle is identified
    with the path it was opened on.  An existing file is opened as it is
    (no truncation), a missing one is created empty in its directory. *)
Definition os_OpenFile (path : string) (flag perm : Z) : M (string + error) :=
  emit (EvOpenFile path flag perm) ;;
  out ← ask;
  f ← getFS;
  match open_err out path with
  | Some errno => ret (inr (PathError "open" path errno))
  | None =>
      if existsb (isFile f) (filepath.ancestors path) then
        ret (inr (PathError "open" path syscall.ENOTDIR))
      else
        match f !! path with
        | Some (Dir _) => ret (inr (PathError "open" path syscall.EISDIR))
        | Some (File _ _) => ret (inl path)
        | None =>
            if parentExists f path then
              putFS (<[path := File perm ""]> f) ;; ret (inl path)
            else ret (inr (PathError "open" path syscall.ENOENT))
        end
  end.

(** Writing at offset 0 of a file opened without O_TRUNC or O_APPEND. *)
Definition overwrite (old data : string) : string :=
  data +:+ String.substring (String.length data)
                            (String.length old - String.length data) old.

Definition writeNode (data : string) (n : Node) : Node :=
  match n with
  | File perm old => File perm (overwrite old data)
  | Dir perm => Dir perm
  end.

(** [io.Copy(dest, body)]: the readable bytes are written to the file
    buffer by buffer; the result is the first error met, a write error or
    the error that ends the body.  A refused write ends the copy with the
    bytes written before it left in the file. *)
Definition io_Copy (dest : string) (resp : Response) : M (option error) :=
  if bool_decide (Body resp = ""%string) then ret (BodyErr resp)
  else
    emit (EvCopy dest (Body resp)) ;;
    out ← ask;
    f ← getFS;
    match write_err out dest with
    | Some errno =>
        putFS (alter (writeNode (String.substring 0 (write_done out dest)
                                                  (Body resp))) dest f) ;;
        ret (Some (PathError "write" dest errno))
    | None =>
        putFS (alter (writeNode (Body resp)) dest f) ;;
        ret (BodyErr resp)
    end.

Definition endsWithDot (path : string) : bool :=
  bool_decide (path = "."%string)
  || bool_decide (String.substring (String.length path - 2) 2 path = "/."%string).

(** An entry cannot be removed when the system refuses to unlink it or
    something below it. *)
Definition stuck (out : Outside) (f : gmap string Node) (path : string) : bool :=
  existsb (λ kv : string * Node,
             filepath.inside path kv.1 && bool_decide (is_Some (unlink_err out kv.1)))
          (map_to_list f).

Definition survives (out : Outside) (f : gmap string Node) (path : string)
    (kv : string * Node) : Prop :=
  filepath.inside path kv.1 = false ∨ stuck out f kv.1 = true.

#[global] Instance survives_dec out f path kv : Decision (survives out f path kv).
Proof. unfold survives. apply _. Defined.

Definition firstUnlinkError (out : Outside) (f : gmap string Node) (path : string)
    : option error :=
  head (omap (λ kv : string * Node,
                if filepath.inside path kv.1
                then PathError "unlinkat" kv.1 <$> unlink_err out kv.1
                else None)
             (map_to_list f)).

(** [os.RemoveAll(path)]: removes the path and what is below it, as far
    as it can, and reports the first failure.  The empty path is accepted
    and does nothing; a path ending in a dot is refused. *)
Definition os_RemoveAll (path : string) : M (option error) :=
  emit (EvRemoveAll path) ;;
  out ← ask;
  f ← getFS;
  if bool_decide (path = ""%string) then ret None
  else if endsWithDot path then
    ret (Some (PathError "RemoveAll" path syscall.EINVAL))
  else
    putFS (filter (survives out f path) f) ;;
    ret (firstUnlinkError out f path).

Definition File_Close (target : string) : M (option error) :=
  emit (EvClose target) ;; ret None.

(** ** The provider *)

Record Config := {
  Platform : string;
  BinDir : string;
  BuildServiceURL : string;
  DownloadProxyURL : string
}.

Record provider := {
  client : Client;
  bidDir : string;
  buildSrv : k6build.BuildService;
  platform : string
}.

(** What [NewProvider] reads from the process and from the libraries it
    calls. *)
Record Env := {
  Getenv : string → string;
  TempDir : string;
  GOOS : string;
  GOARCH : string;
  (** [url.Parse]: the parsed URL, kept as its text, or the parse error *)
  url_Parse : string → string + error;
  (** [client.NewBuildServiceClient] for a service URL *)
  NewBuildServiceClient : string → k6build.BuildService + error
}.

(** The proxy URL [NewProvider] works with: the configured one, or the
    environment's when none is configured. *)
Definition effectiveProxyURL (env : Env) (config : Config) : string :=
  if bool_decide (DownloadProxyURL config = ""%string)
  then Getenv env "K6_DOWNLOAD_PROXY"
  else DownloadProxyURL config.

(** The tail of [NewProvider], from the build service URL on. *)
Definition NewProvider_finish (env : Env) (config : Config) (binDir : string)
    (httpClient : Client) : option provider * option error :=
  let buildSrvURL := BuildServiceURL config in
  let buildSrvURL :=
    if bool_decide (buildSrvURL = ""%string)
    then Getenv env "K6_BUILD_SERVICE_URL" else buildSrvURL in
  match NewBuildServiceClient env buildSrvURL with
  | inr err => (None, Some err)
  | inl buildSrv =>
      let platform := Platform config in
      let platform :=
        if bool_decide (platform = ""%string)
        then GOOS env +:+ "/" +:+ GOARCH env else platform in
      (Some {| client := httpClient; bidDir := binDir;
               buildSrv := buildSrv; platform := platform |}, None)
  end.

(** [NewProvider(config)]; the result pair is (Provider, error), with
    [None] for nil. *)
Definition NewProvider (env : Env) (config : Config)
    : option provider * option error :=
  let binDir := BinDir config in
  let binDir :=
    if bool_decide (binDir = ""%string)
    then filepath.Join [TempDir env; "k6provider"%string; "cache"%string]
    else binDir in
  let httpClient := DefaultClient in
  let proxyURL := DownloadProxyURL config in
  let proxyURL :=
    if bool_decide (proxyURL = ""%string)
    then Getenv env "K6_DOWNLOAD_PROXY" else proxyURL in
  if bool_decide (proxyURL ≠ ""%string) then
    match url_Parse env proxyURL with
    | inr err => (None, Some (Errorf_ww (New ErrConfig) err))
    | inl parsed => NewProvider_finish env config binDir (ProxyClient parsed)
    end
  else NewProvider_finish env config binDir httpClient.

Definition http_StatusOK : Z := 200.

Definition http_NewRequest (url : string) : M (option error) :=
  emit (EvNewRequest url) ;;
  out ← ask;
  ret (newRequest_err out url).

Definition Client_Do (c : Client) (url : string) : M (Response + error) :=
  emit (EvDo c url) ;;
  out ← ask;
  ret (roundTrip out c url).

(** [p.download(ctx, from, dest)]. *)
Definition download (p : provider) (from : string) (dest : string)
    : M (option error) :=
  err ← http_NewRequest from;
  match err with
  | Some err => ret (Some (Errorf_ww (New ErrDownload) err))
  | None =>
      r ← Client_Do (client p) from;
      match r with
      | inr err => ret (Some (Errorf_ww (New ErrDownload) err))
      | inl resp =>
          if bool_decide (StatusCode resp ≠ http_StatusOK) then
            ret (Some (Errorf_ws (New ErrDownload) from))
          else
            err ← io_Copy dest resp;
            emit (EvBodyClose from) ;;
            ret err
      end
  end.

Definition BuildService_Build (srv : k6build.BuildService)
    (platform k6Constrains : string) (deps : list k6build.Dependency)
    : M (k6build.Artifact + error) :=
  emit (EvBuild platform k6Constrains deps) ;;
  ret (srv platform k6Constrains deps).

Definition binaryOf (binPath : string) (artifact : k6build.Artifact) : K6Binary :=
  {| Path := binPath;
     Dependencies := k6build.Dependencies artifact;
     Checksum := k6build.Checksum artifact |}.

(** [p.GetBinary(ctx, deps)]; the result pair is (K6Binary, error). *)
Definition GetBinary (p : provider) (r : GoMap.RangeOrder)
    (deps : k6deps.Dependencies) : M (K6Binary * option error) :=
  let '(k6Constrains, bdeps) := buildDeps r deps in
  res ← BuildService_Build (buildSrv p) (platform p) k6Constrains bdeps;
  match res with
  | inr err => ret (K6Binary_zero, Some (Errorf_ww (New ErrBuild) err))
  | inl artifact =>
      let artifactDir := filepath.Join [bidDir p; k6build.ID artifact] in
      let binPath := filepath.Join [artifactDir; k6Binary] in
      err ← os_Stat binPath;
      match err with
      | None => ret (binaryOf binPath artifact, None)
      | Some err =>
          if negb (os_IsNotExist err) then
            ret (K6Binary_zero, Some (Errorf_ww (New ErrBinary) err))
          else
            err ← os_MkdirAll artifactDir syscall.S_IRWXU;
            match err with
            | Some err => ret (K6Binary_zero, Some (Errorf_ww (New ErrBinary) err))
            | None =>
                res ← os_OpenFile binPath
                        (Z.lor syscall.O_WRONLY syscall.O_CREATE)
                        (Z.lor (Z.lor syscall.S_IRUSR syscall.S_IXUSR) syscall.S_IWUSR);
                match res with
                | inr err => ret (K6Binary_zero, Some (Errorf_ww (New ErrBinary) err))
                | inl target =>
                    err ← download p (k6build.URL artifact) target;
                    match err with
                    | Some err =>
                        os_RemoveAll artifactDir ;;
                        ret (K6Binary_zero, Some err)
                    | None =>
                        File_Close target ;;
                        ret (binaryOf binPath artifact, None)
                    end
                end
            end
      end
  end.

(** The artifact directory and binary path [GetBinary] derives. *)
Definition artifactDirOf (p : provider) (artifact : k6build.Artifact) : string :=
  filepath.Join [bidDir p; k6build.ID artifact].

Definition binPathOf (p : provider) (artifact : k6build.Artifact) : string :=
  filepath.Join [artifactDirOf p artifact; k6Binary].

(** The build call [GetBinary] makes for a dependency map. *)
Definition buildResult (p : provider) (r : GoMap.RangeOrder)
    (deps : k6deps.Dependencies) : k6build.Artifact + error :=
  buildSrv p (platform p) (buildDeps r deps).1 (buildDeps r deps).2.

Definition buildEvent (p : provider) (r : GoMap.RangeOrder)
    (deps : k6deps.Dependencies) : Event :=
  EvBuild (platform p) (buildDeps r deps).1 (buildDeps r deps).2.

Definition openFlag : Z := Z.lor syscall.O_WRONLY syscall.O_CREATE.

Definition openPerm : Z :=
  Z.lor (Z.lor syscall.S_IRUSR syscall.S_IXUSR) syscall.S_IWUSR.

(** The states [GetBinary] passes through on a cache miss, call by call. *)
Section Stages.

Variables (p : provider) (r : GoMap.RangeOrder) (deps : k6deps.Dependencies)
          (out : Outside) (st : State) (artifact : k6build.Artifact).

Definition afterBuild : State :=
  {| fs := fs st; log := log st ++ [buildEvent p r deps] |}.

Definition statStep : option error * State :=
  os_Stat (binPathOf p artifact) out afterBuild.

Definition mkdirStep : option error * State :=
  os_MkdirAll (artifactDirOf p artifact) syscall.S_IRWXU out statStep.2.

Definition openStep : (string + error) * State :=
  os_OpenFile (binPathOf p artifact) openFlag openPerm out mkdirStep.2.

Definition downloadStep : option error * State :=
  download p (k6build.URL artifact) (binPathOf p artifact) out openStep.2.

Definition removeStep : option error * State :=
  os_RemoveAll (artifactDirOf p artifact) out downloadStep.2.

(** [GetBinary] gets as far as calling [download]: the build call
    returned the artifact, stat reported "not found", the directory was
    made and the target was opened. *)
Definition reachesDownload : Prop :=
  buildResult p r deps = inl artifact
  ∧ (∃ e, statStep.1 = Some e ∧ os_IsNotExist e = true)
  ∧ mkdirStep.1 = None
  ∧ openStep.1 = inl (binPathOf p artifact).

End Stages.

(** ** Vocabulary of the statements *)

(** Calls that reach the file system. *)
Definition touchesFiles (e : Event) : bool :=
  match e with
  | EvStat _ | EvMkdirAll _ _ | EvOpenFile _ _ _ | EvCopy _ _
  | EvRemoveAll _ | EvClose _ => true
  | _ => false
  end.

(** Calls that change the file system. *)
Definition mutatesFiles (e : Event) : bool :=
  match e with
  | EvMkdirAll _ _ | EvOpenFile _ _ _ | EvCopy _ _ | EvRemoveAll _ => true
  | _ => false
  end.

(** Calls of the download step. *)
Definition isDownloadCall (e : Event) : bool :=
  match e with
  | EvNewRequest _ | EvDo _ _ | EvBodyClose _ => true
  | _ => false
  end.

(** The events a computation added to the log. *)
Definition logged (st st' : State) : list Event :=
  drop (length (log st)) (log st').

(** A version string that [strconv.Quote] leaves as it is: printable
    ASCII without double quote and backslash. *)
Definition plainChar (c : ascii) : bool :=
  (32 <=? N_of_ascii c)%N && (N_of_ascii c <? 127)%N
  && negb (bool_decide (c = strconv.dquote))
  && negb (bool_decide (c = strconv.backslash)).

Definition plain (s : string) : bool :=
  forallb plainChar (list_ascii_of_string s).

(** Path elements that [Clean] keeps as they are: not empty, not a dot
    element, free of separators. *)
Definition plainElem (e : string) : Prop :=
  e ≠ ""%string ∧ e ≠ "."%string ∧ e ≠ ".."%string
  ∧ "/"%char ∉ list_ascii_of_string e.

(** The shape of the output of [Clean], last element first: plain
    elements on top of the leading dot-dot elements, of which a rooted
    path has none. *)
Definition cleanStack (rooted : bool) (out : list string) : Prop :=
  ∃ reals n, out = reals ++ replicate n ".."%string
             ∧ Forall plainElem reals ∧ (rooted = true → n = 0).

(** Concatenation of a list of strings. *)
Definition joinAll (l : list string) : string :=
  foldr String.append ""%string l.

(** The text [UnmarshalDeps] writes for one entry. *)
Definition entryText (escapeMultibyte : string → string * nat)
    (kv : string * string) : string :=
  kv.1 +:+ ":" +:+ strconv.Quote escapeMultibyte kv.2 +:+ ";".

(** The entry text as the words "name, colon, version in double quotes,
    semicolon" describe it: the version is copied between two quote
    characters. *)
Definition entryInQuotes (kv : string * string) : string :=
  kv.1 +:+ ":" +:+ String strconv.dquote (kv.2 +:+ strconv.str strconv.dquote) +:+ ";".

(** ** Concrete scenarios *)

Module Scenario.

Definition forward : GoMap.RangeOrder :=
  {| GoMap.order := λ _ l, l;
     GoMap.order_perm := λ _ l, reflexivity l |}.

Definition backward : GoMap.RangeOrder :=
  {| GoMap.order := λ _ l, reverse l;
     GoMap.order_perm := λ _ l, reverse_Permutation l |}.

Definition dep (name constraints : string) : k6deps.Dependency :=
  {| k6deps.Name := name; k6deps.Constraints := constraints |}.

Definition deps : k6deps.Dependencies :=
  Some {[ "k6"%string := dep "k6" ">=0.50.0";
          "k6/x/sql"%string := dep "k6/x/sql" "*";
          "k6/x/kubernetes"%string := dep "k6/x/kubernetes" ">0.8" ]}.

Definition depsNoK6 : k6deps.Dependencies :=
  Some {[ "k6/x/sql"%string := dep "k6/x/sql" "*";
          "k6/x/kubernetes"%string := dep "k6/x/kubernetes" ">0.8" ]}.

Definition artifact : k6build.Artifact :=
  {| k6build.ID := "abc123";
     k6build.URL := "https://svc/abc123/k6";
     k6build.Dependencies := Some {[ "k6"%string := "v0.50.0"%string ]};
     k6build.Checksum := "deadbeef" |}.

Definition prov : provider :=
  {| client := DefaultClient;
     bidDir := "/cache";
     buildSrv := λ _ _ _, inl artifact;
     platform := "linux/amd64" |}.

Definition provDown : provider :=
  {| client := DefaultClient;
     bidDir := "/cache";
     buildSrv := λ _ _ _, inr (Foreign "connection refused");
     platform := "linux/amd64" |}.

Definition response (status : Z) (body : string) (err : option error) : Response :=
  {| StatusCode := status; Body := body; BodyErr := err |}.

(** An outside world in which no system call is refused and the download
    URL answers with [resp]. *)
Definition calm (resp : Response + error) : Outside :=
  {| stat_err := λ _, None; mkdir_err := λ _, None; open_err := λ _, None;
     write_err := λ _, None; write_done := λ _, 0; unlink_err := λ _, None;
     newRequest_err := λ _, None;
     roundTrip := λ _ _, resp |}.

(** The same, except that the artifact directory cannot be unlinked. *)
Definition dirPinned (resp : Response + error) : Outside :=
  {| stat_err := λ _, None; mkdir_err := λ _, None; open_err := λ _, None;
     write_err := λ _, None; write_done := λ _, 0;
     unlink_err := λ path,
       if bool_decide (path = "/cache/abc123"%string)
       then Some syscall.EACCES else None;
     newRequest_err := λ _, None;
     roundTrip := λ _ _, resp |}.

(** The same as [calm], except that stat on the binary is refused. *)
Definition statDenied : Outside :=
  {| stat_err := λ path,
       if bool_decide (path = "/cache/abc123/k6"%string)
       then Some syscall.EACCES else None;
     mkdir_err := λ _, None; open_err := λ _, None;
     write_err := λ _, None; write_done := λ _, 0; unlink_err := λ _, None;
     newRequest_err := λ _, None;
     roundTrip := λ _ _, inr (Foreign "unreachable") |}.

(** A cache root with an empty directory for the artifact. *)
Definition emptyDir : State :=
  {| fs := {[ "/cache"%string := Dir 448; "/cache/abc123"%string := Dir 448 ]};
     log := [] |}.

(** A cache root only. *)
Definition fresh : State :=
  {| fs := {[ "/cache"%string := Dir 448 ]}; log := [] |}.

(** A cache that holds the binary. *)
Definition cached : State :=
  {| fs := {[ "/cache"%string := Dir 448; "/cache/abc123"%string := Dir 448;
              "/cache/abc123/k6"%string := File 448 "ELF" ]};
     log := [] |}.

Definition env (proxy : string) : Env :=
  {| Getenv := λ name,
       if bool_decide (name = "K6_DOWNLOAD_PROXY"%string) then proxy else ""%string;
     TempDir := "/tmp";
     GOOS := "linux";
     GOARCH := "amd64";
     url_Parse := λ raw,
       if bool_decide (raw = ":3128"%string)
       then inr (Foreign "missing protocol scheme") else inl raw;
     NewBuildServiceClient := λ _, inl (λ _ _ _, inl artifact) |}.

Definition config : Config :=
  {| Platform := ""; BinDir := ""; BuildServiceURL := "http://build";
     DownloadProxyURL := "" |}.

(** A version with a double quote inside: v, quote, 1. *)
Definition quotedVersion : string :=
  String "v" (String strconv.dquote "1").

Definition oddBinary : K6Binary :=
  {| Path := "/cache/abc123/k6";
     Dependencies := Some {[ "k6"%string := quotedVersion ]};
     Checksum := "deadbeef" |}.

Definition binary : K6Binary :=
  {| Path := "/cache/abc123/k6";
     Dependencies := Some {[ "k6"%string := "v0.50.0"%string ]};
     Checksum := "deadbeef" |}.

Definition noMultibyte : string → string * nat := λ _, (""%string, 1%nat).

End Scenario.

(** ** The rest of the package *)

(** The zero value [Config{}]. *)
Definition Config_zero : Config :=
  {| Platform := ""; BinDir := ""; BuildServiceURL := ""; DownloadProxyURL := "" |}.

(** [NewDefaultProvider()]. *)
Definition NewDefaultProvider (env : Env) : option provider * option error :=
  NewProvider env Config_zero.

(** The state after [target.Close()] on the successful path of
    [GetBinary]. *)
Definition closeStep (p : provider) (r : GoMap.RangeOrder)
    (deps : k6deps.Dependencies) (out : Outside) (st : State)
    (artifact : k6build.Artifact) : option error * State :=
  File_Close (binPathOf p artifact) out (downloadStep p r deps out st artifact).2.

(** A state with further calls logged. *)
Definition withLog (st : State) (evs : list Event) : State :=
  {| fs := fs st; log := log st ++ evs |}.

(** A cache miss: the build call returned the artifact and stat reported
    "not found" for its binary. *)
Definition cacheMiss (p : provider) (r : GoMap.RangeOrder)
    (deps : k6deps.Dependencies) (out : Outside) (st : State)
    (artifact : k6build.Artifact) : Prop :=
  buildResult p r deps = inl artifact
  ∧ ∃ e, (statStep p r deps out st artifact).1 = Some e
         ∧ os_IsNotExist e = true.

(** HTTP requests handed to the client. *)
Definition isRequest (e : Event) : bool :=
  match e with
  | EvDo _ _ => true
  | _ => false
  end.

Definition isBuildCall (e : Event) : bool :=
  match e with
  | EvBuild _ _ _ => true
  | _ => false
  end.

Definition isRemoval (e : Event) : bool :=
  match e with
  | EvRemoveAll _ => true
  | _ => false
  end.

(** The error classes [GetBinary] assigns. *)
Definition classOf (e : error) : list sentinel :=
  filter (λ s, errors_Is e s = true)
         [ErrBinary; ErrBuild; ErrConfig; ErrDependency; ErrDownload].

(** An error that carries none of the package's classes, as the errors of
    the collaborators are. *)
Definition classless (e : error) : Prop := classOf e = [].

(** The earlier revision of the package that the source file carries after
    the current one.  Its [download] and [buildDeps] are the current ones
    word for word; its [GetBinary] returns the path alone. *)
Module Earlier.

Record Config := {
  Platform : string;
  (** [*http.Client], [None] for nil *)
  Client : option Client;
  BinDir : string;
  BuildServiceURL : string
}.

(** [NewProvider(config)] of the earlier revision. *)
Definition NewProvider (env : Env) (config : Config)
    : option provider * option error :=
  let binDir := BinDir config in
  let binDir := if bool_decide (binDir = ""%string) then TempDir env else binDir in
  let httpClient := Client config in
  let httpClient :=
    match httpClient with
    | None => DefaultClient
    | Some c => c
    end in
  let buildSrvURL := BuildServiceURL config in
  let buildSrvURL :=
    if bool_decide (buildSrvURL = ""%string)
    then Getenv env "K6_BUILD_SERVICE_URL" else buildSrvURL in
  match NewBuildServiceClient env buildSrvURL with
  | inr err => (None, Some err)
  | inl buildSrv =>
      let platform := Platform config in
      let platform :=
        if bool_decide (platform = ""%string)
        then GOOS env +:+ "/" +:+ GOARCH env else platform in
      (Some {| client := httpClient; bidDir := binDir;
               buildSrv := buildSrv; platform := platform |}, None)
  end.

(** [p.GetBinary(ctx, deps)] of the earlier revision; the result pair is
    (string, error).  The constant [k6Binary] it uses is not declared in
    that revision's constant block and is taken from the current one. *)
Definition GetBinary (p : provider) (r : GoMap.RangeOrder)
    (deps : k6deps.Dependencies) : M (string * option error) :=
  let '(k6Constrains, bdeps) := buildDeps r deps in
  res ← BuildService_Build (buildSrv p) (platform p) k6Constrains bdeps;
  match res with
  | inr err => ret (""%string, Some (Errorf_ww (New ErrBuild) err))
  | inl artifact =>
      let artifactDir := filepath.Join [bidDir p; k6build.ID artifact] in
      let binPath := filepath.Join [artifactDir; k6Binary] in
      err ← os_Stat binPath;
      match err with
      | None => ret (binPath, None)
      | Some err =>
          if negb (os_IsNotExist err) then
            ret (""%string, Some (Errorf_ww (New ErrBinary) err))
          else
            err ← os_MkdirAll artifactDir syscall.S_IRWXU;
            match err with
            | Some err => ret (""%string, Some (Errorf_ww (New ErrBinary) err))
            | None =>
                res ← os_OpenFile binPath
                        (Z.lor syscall.O_WRONLY syscall.O_CREATE)
                        (Z.lor (Z.lor syscall.S_IRUSR syscall.S_IXUSR) syscall.S_IWUSR);
                match res with
                | inr err => ret (""%string, Some (Errorf_ww (New ErrBinary) err))
                | inl target =>
                    err ← download p (k6build.URL artifact) target;
                    match err with
                    | Some err =>
                        os_RemoveAll artifactDir ;;
                        ret (""%string, Some err)
                    | None =>
                        File_Close target ;;
                        ret (binPath, None)
                    end
                end
            end
      end
  end.

End Earlier.

(** ** Proxy URLs

    What a well-formed proxy URL is, to compare the check of [NewProvider]
    with: one of the schemes [http.Transport] can send requests through,
    then [://], then a host. *)
Definition proxySchemes : list string :=
  ["http"; "https"; "socks5"; "socks5h"]%string.

Definition wellFormedProxyURL (raw : string) : bool :=
  existsb (λ scheme : string,
             String.prefix (scheme +:+ "://") raw
             && negb (bool_decide (raw = scheme +:+ "://")))
          proxySchemes.

Definition malformedProxyURL (raw : string) : bool :=
  negb (wellFormedProxyURL raw).

(** Further scenarios. *)
Module Cases.

(** A proxy setting whose scheme lacks its colon.  [url.Parse] finds no
    scheme in it, takes all of it for a relative path and returns no
    error. *)
Definition proxyNoColon : string := "http//proxy:3128".

(** The provider [NewProvider] makes from [Scenario.config] when the
    environment sets that proxy. *)
Definition proxyProv : provider :=
  {| client := ProxyClient proxyNoColon;
     bidDir := "/tmp/k6provider/cache";
     buildSrv := λ _ _ _, inl Scenario.artifact;
     platform := "linux/amd64" |}.

(** No system call is refused and the download URL would answer, but a
    client that is to go through a proxy gets no connection. *)
Definition proxyUnreachable : Outside :=
  {| stat_err := λ _, None; mkdir_err := λ _, None; open_err := λ _, None;
     write_err := λ _, None; write_done := λ _, 0; unlink_err := λ _, None;
     newRequest_err := λ _, None;
     roundTrip := λ c _,
       match c with
       | DefaultClient => inl (Scenario.response 200 "ELF" None)
       | ProxyClient _ => inr (Foreign "proxyconnect tcp: connection refused")
       end |}.

(** The artifact directory cannot be made. *)
Definition mkdirDenied : Outside :=
  {| stat_err := λ _, None;
     mkdir_err := λ path,
       if bool_decide (path = "/cache/abc123"%string)
       then Some syscall.EACCES else None;
     open_err := λ _, None; write_err := λ _, None; write_done := λ _, 0;
     unlink_err := λ _, None;
     newRequest_err := λ _, None;
     roundTrip := λ _ _, inr (Foreign "unreachable") |}.

(** Nothing on disk yet, not even the cache root. *)
Definition bare : State := {| fs := ∅; log := [] |}.

(** The binary cannot be opened. *)
Definition openDenied : Outside :=
  {| stat_err := λ _, None; mkdir_err := λ _, None;
     open_err := λ path,
       if bool_decide (path = "/cache/abc123/k6"%string)
       then Some syscall.EACCES else None;
     write_err := λ _, None; write_done := λ _, 0; unlink_err := λ _, None;
     newRequest_err := λ _, None;
     roundTrip := λ _ _, inr (Foreign "unreachable") |}.

(** A configuration that sets everything. *)
Definition fullConfig : Config :=
  {| Platform := "linux/arm64"; BinDir := "/var/cache/k6";
     BuildServiceURL := "http://build"; DownloadProxyURL := "http://proxy:3128" |}.

Definition earlierConfig : Earlier.Config :=
  {| Earlier.Platform := "linux/arm64"; Earlier.Client := None;
     Earlier.BinDir := "/var/cache/k6";
     Earlier.BuildServiceURL := "http://build" |}.

Definition plainConfig : Config :=
  {| Platform := "linux/arm64"; BinDir := "/var/cache/k6";
     BuildServiceURL := "http://build"; DownloadProxyURL := "" |}.

(** The provider [NewProvider] makes from [Scenario.env] and
    [Scenario.config]. *)
Definition defaultProv : provider :=
  {| client := DefaultClient;
     bidDir := "/tmp/k6provider/cache";
     buildSrv := λ _ _ _, inl Scenario.artifact;
     platform := "linux/amd64" |}.

(** An artifact description without ID, a provider whose build service
    returns it, and a cache that holds the binary of another artifact. *)
Definition noID : k6build.Artifact :=
  {| k6build.ID := "";
     k6build.URL := "https://svc/k6";
     k6build.Dependencies := None;
     k6build.Checksum := "" |}.

Definition provNoID : provider :=
  {| client := DefaultClient;
     bidDir := "/cache";
     buildSrv := λ _ _ _, inl noID;
     platform := "linux/amd64" |}.

Definition shared : State :=
  {| fs := {[ "/cache"%string := Dir 448; "/cache/other"%string := Dir 448;
              "/cache/other/k6"%string := File 448 "ELF" ]};
     log := [] |}.

End Cases.

(** * Properties *)

(** ** Range enumerations *)

Lemma range_perm {V} (r : GoMap.RangeOrder) (m : GoMap.t V) :
  GoMap.range r m ≡ₚ GoMap.entries m.
Proof. unfold GoMap.range. apply GoMap.order_perm. Qed.

Lemma entries_NoDup_keys {V} (m : GoMap.t V) : NoDup (GoMap.entries m).*1.
Proof.
  destruct m as [g|]; simpl.
  - apply NoDup_fst_map_to_list.
  - constructor.
Qed.

Lemma range_NoDup_keys {V} (r : GoMap.RangeOrder) (m : GoMap.t V) :
  NoDup (GoMap.range r m).*1.
Proof.
  rewrite (range_perm r m). apply entries_NoDup_keys.
Qed.

Lemma entries_get {V} (m : GoMap.t V) k v :
  (k, v) ∈ GoMap.entries m ↔ GoMap.get m k = Some v.
Proof.
  destruct m as [g|]; simpl.
  - apply elem_of_map_to_list.
  - split; [by intros ?%elem_of_nil | done].
Qed.

Lemma keyedByName_lookup (deps : k6deps.Dependencies) :
  k6deps.keyedByName deps
  ↔ ∀ k d, GoMap.get deps k = Some d → k6deps.Name d = k.
Proof.
  unfold k6deps.keyedByName. rewrite Forall_forall. split.
  - intros H k d Hkd. by apply (H (k, d)), entries_get.
  - intros H [k d] Hin. by apply H, entries_get.
Qed.

(** ** buildDeps *)

Lemma buildDeps_body_fold ds c bs :
  fold_left buildDeps_body ds (c, bs)
  = (default c (last (k6deps.Constraints <$> filter isPrimary ds)),
     bs ++ auxiliaryOf ds).
Proof.
  revert c bs. induction ds as [|d ds IH]; intros c bs; simpl.
  - by rewrite app_nil_r.
  - unfold auxiliaryOf. rewrite !filter_cons. unfold isPrimary at 1 3.
    destruct (decide (k6deps.Name d = k6Module)) as [Hd|Hd].
    + rewrite IH. destruct (decide (¬ _)) as [Hn|_]; [done|].
      f_equal. rewrite fmap_cons, last_cons.
      by destruct (last _).
    + rewrite IH. destruct (decide (¬ _)) as [_|Hn]; [|done].
      f_equal. rewrite fmap_cons. by rewrite <- app_assoc.
Qed.

Lemma buildDeps_spec r deps :
  buildDeps r deps
  = (primaryOf ((GoMap.range r deps).*2), auxiliaryOf ((GoMap.range r deps).*2)).
Proof. unfold buildDeps. by rewrite buildDeps_body_fold. Qed.

Lemma filter_none {A} (P : A → Prop) `{!∀ x, Decision (P x)} (l : list A) :
  Forall (λ x, ¬ P x) l → filter P l = [].
Proof.
  induction 1 as [|x l Hx _ IH]; [done|].
  rewrite filter_cons. by destruct (decide (P x)).
Qed.

Lemma auxiliaryOf_perm ds1 ds2 : ds1 ≡ₚ ds2 → auxiliaryOf ds1 ≡ₚ auxiliaryOf ds2.
Proof. intros H. unfold auxiliaryOf. by rewrite H. Qed.

Lemma auxiliaryOf_no_primary ds :
  Forall (λ b, k6build.Name b ≠ k6Module) (auxiliaryOf ds).
Proof.
  unfold auxiliaryOf. apply Forall_fmap, Forall_forall.
  intros d [Hd _]%list_elem_of_filter. exact Hd.
Qed.

(** With every entry stored under its name, at most one entry of an
    enumeration is the primary module. *)
Lemma primary_at_most_once (l : list (string * k6deps.Dependency)) :
  NoDup (l.*1) →
  Forall (λ kv, k6deps.Name kv.2 = kv.1) l →
  length (filter isPrimary (l.*2)) ≤ 1.
Proof.
  induction l as [|[k d] l IH]; intros Hnd Hkey; simpl; [lia|].
  apply NoDup_cons in Hnd as [Hk Hnd]. apply Forall_cons in Hkey as [Hkd Hkey].
  simpl in *. rewrite filter_cons. destruct (decide (isPrimary d)) as [Hd|Hd].
  - rewrite filter_none; [simpl; lia|].
    apply Forall_fmap, Forall_forall. intros [k' d'] Hin Hd'. simpl in *.
    apply Hk. apply list_elem_of_fmap. exists (k', d'). split; [|done].
    simpl. rewrite Forall_forall in Hkey. specialize (Hkey _ Hin). simpl in Hkey.
    unfold isPrimary in *. congruence.
  - by apply IH.
Qed.

Lemma short_perm_eq {A} (l1 l2 : list A) :
  l1 ≡ₚ l2 → length l1 ≤ 1 → l1 = l2.
Proof.
  intros Hp Hlen. destruct l1 as [|x [|y l1]]; simpl in Hlen; [| |lia].
  - by apply Permutation_nil_l.
  - by apply Permutation_singleton_l.
Qed.

(** C4: when no entry of the dependency map is named k6, [buildDeps]
    returns the wildcard "*" as the k6 constraint, whatever the order in
    which the map is enumerated. *)
Theorem buildDeps_default_constraint (r : GoMap.RangeOrder)
    (deps : k6deps.Dependencies) :
  Forall (λ kv, k6deps.Name kv.2 ≠ k6Module) (GoMap.entries deps) →
  (buildDeps r deps).1 = "*"%string.
Proof.
  intros Hno. rewrite buildDeps_spec. simpl. unfold primaryOf.
  rewrite filter_none; [done|].
  apply Forall_fmap. rewrite (range_perm r deps).
  eapply Forall_impl; [exact Hno|]. by intros [k d].
Qed.

Lemma buildDeps_default_constraint_witness :
  (buildDeps Scenario.backward Scenario.depsNoK6).1 = "*"%string.
Proof.
  apply (buildDeps_default_constraint Scenario.backward Scenario.depsNoK6).
  apply (bool_decide_unpack _). vm_compute. exact I.
Defined.

(** C5: the auxiliary list [buildDeps] returns has one entry for each
    entry of the map whose name is not k6, with that entry's name and
    constraint string unchanged, and no entry named k6. *)
Theorem buildDeps_auxiliary (r : GoMap.RangeOrder) (deps : k6deps.Dependencies) :
  length (buildDeps r deps).2
  = length (filter (λ kv, k6deps.Name kv.2 ≠ k6Module) (GoMap.entries deps))
  ∧ (buildDeps r deps).2
    ≡ₚ toBuildDependency
         <$> filter (λ d, k6deps.Name d ≠ k6Module) ((GoMap.entries deps).*2)
  ∧ Forall (λ b, k6build.Name b ≠ k6Module) (buildDeps r deps).2.
Proof.
  rewrite buildDeps_spec. simpl.
  assert (Hp : auxiliaryOf ((GoMap.range r deps).*2)
               ≡ₚ auxiliaryOf ((GoMap.entries deps).*2)).
  { apply auxiliaryOf_perm. by rewrite (range_perm r deps). }
  split; [|split].
  - rewrite Hp. unfold auxiliaryOf. rewrite length_fmap.
    generalize (GoMap.entries deps). intros l.
    induction l as [|[k d] l IH]; [done|].
    rewrite fmap_cons, !filter_cons. simpl. unfold isPrimary at 1.
    destruct (decide (¬ k6deps.Name d = k6Module));
      destruct (decide (k6deps.Name d ≠ k6Module)); simpl; try done.
    by rewrite IH.
  - exact Hp.
  - apply auxiliaryOf_no_primary.
Qed.

(** C7 (as amended): on a dependency map whose entries are stored under
    their names, two runs of [buildDeps] return the same k6 constraint and
    auxiliary lists with the same entries; only the order of the list may
    differ between the runs. *)
Theorem buildDeps_runs_agree (r1 r2 : GoMap.RangeOrder)
    (deps : k6deps.Dependencies) :
  k6deps.keyedByName deps →
  (buildDeps r1 deps).1 = (buildDeps r2 deps).1
  ∧ (buildDeps r1 deps).2 ≡ₚ (buildDeps r2 deps).2.
Proof.
  unfold k6deps.keyedByName. intros Hkey. rewrite !buildDeps_spec. simpl. split.
  - unfold primaryOf. f_equal. f_equal. f_equal.
    apply short_perm_eq.
    + by rewrite (range_perm r1 deps), (range_perm r2 deps).
    + apply primary_at_most_once; [apply range_NoDup_keys|].
      by rewrite (range_perm r1 deps).
  - apply auxiliaryOf_perm.
    by rewrite (range_perm r1 deps), (range_perm r2 deps).
Qed.

Lemma buildDeps_runs_agree_witness :
  (buildDeps Scenario.forward Scenario.deps).1
  = (buildDeps Scenario.backward Scenario.deps).1
  ∧ (buildDeps Scenario.forward Scenario.deps).2
    ≡ₚ (buildDeps Scenario.backward Scenario.deps).2.
Proof.
  apply (buildDeps_runs_agree Scenario.forward Scenario.backward Scenario.deps).
  unfold k6deps.keyedByName. apply (bool_decide_unpack _). vm_compute. exact I.
Defined.

(** C7, the claim as stated fails: two enumerations of the same map give
    auxiliary lists in different orders. *)
Lemma buildDeps_order_differs :
  buildDeps Scenario.forward Scenario.deps
  = (">=0.50.0"%string,
     [ {| k6build.Name := "k6/x/kubernetes"; k6build.Constraints := ">0.8" |};
       {| k6build.Name := "k6/x/sql"; k6build.Constraints := "*" |} ])
  ∧ buildDeps Scenario.backward Scenario.deps
    = (">=0.50.0"%string,
       [ {| k6build.Name := "k6/x/sql"; k6build.Constraints := "*" |};
         {| k6build.Name := "k6/x/kubernetes"; k6build.Constraints := ">0.8" |} ])
  ∧ (buildDeps Scenario.forward Scenario.deps).2
    ≠ (buildDeps Scenario.backward Scenario.deps).2.
Proof.
  split; [by vm_compute|]. split; [by vm_compute|].
  vm_compute. discriminate.
Qed.

(** ** UnmarshalDeps *)

Lemma string_app_cons (x : ascii) (a b : string) :
  String x a +:+ b = String x (a +:+ b).
Proof. reflexivity. Qed.

Lemma string_app_nil_l (a : string) : "" +:+ a = a.
Proof. reflexivity. Qed.

Lemma string_app_assoc (a b c : string) : (a +:+ b) +:+ c = a +:+ (b +:+ c).
Proof.
  induction a as [|x a IH]; [done|].
  by rewrite !string_app_cons, IH.
Qed.

Lemma string_app_nil_r (a : string) : a +:+ "" = a.
Proof.
  induction a as [|x a IH]; [done|].
  by rewrite string_app_cons, IH.
Qed.

Lemma UnmarshalDeps_body_fold esc (l : list (string * string)) (buffer : string) :
  fold_left (strconv.UnmarshalDeps_body esc) l buffer
  = buffer +:+ joinAll (entryText esc <$> l).
Proof.
  revert buffer. induction l as [|[dep version] l IH]; intros buffer; simpl.
  - by rewrite string_app_nil_r.
  - rewrite IH. unfold entryText. simpl. by rewrite !string_app_assoc.
Qed.

Lemma escapeASCII_plain c :
  plainChar c = true →
  (N_of_ascii c <? 128)%N = true ∧ strconv.escapeASCII c = strconv.str c.
Proof.
  unfold plainChar, strconv.escapeASCII. intros H.
  apply andb_prop in H as [H Hb]. apply andb_prop in H as [H Hq].
  apply andb_prop in H as [Hlo Hhi].
  apply negb_true_iff in Hb, Hq. rewrite Hb, Hq, Hlo, Hhi. simpl.
  split; [|done]. apply N.ltb_lt. apply N.ltb_lt in Hhi. lia.
Qed.

Lemma quoteLoop_plain esc s :
  plain s = true → strconv.quoteLoop esc 0 s = s.
Proof.
  unfold plain. induction s as [|c s IH]; simpl; [done|].
  intros [Hc Hs]%andb_prop. destruct (escapeASCII_plain c Hc) as [-> ->].
  unfold strconv.str. rewrite string_app_cons, string_app_nil_l.
  by rewrite IH.
Qed.

Lemma entryText_plain esc kv :
  plain kv.2 = true → entryText esc kv = entryInQuotes kv.
Proof.
  intros H. unfold entryText, entryInQuotes, strconv.Quote.
  by rewrite quoteLoop_plain.
Qed.

(** C10 (as amended): [UnmarshalDeps] returns the concatenation, over the
    entries of the Dependencies map in the order the loop enumerates them
    (each entry once), of name, colon, the version quoted as the verb %q
    does, and semicolon; the result is empty when the map is nil or
    empty; and when every version is made of printable ASCII characters
    other than the double quote and the backslash, the quoted version is
    the version between two double quotes. *)
Theorem UnmarshalDeps_spec (esc : string → string * nat)
    (r : GoMap.RangeOrder) (b : K6Binary) :
  UnmarshalDeps esc r b
  = joinAll (entryText esc <$> GoMap.range r (Dependencies b))
  ∧ GoMap.range r (Dependencies b) ≡ₚ GoMap.entries (Dependencies b)
  ∧ (GoMap.entries (Dependencies b) = [] → UnmarshalDeps esc r b = ""%string)
  ∧ (Forall (λ kv, plain kv.2 = true) (GoMap.entries (Dependencies b)) →
     UnmarshalDeps esc r b
     = joinAll (entryInQuotes <$> GoMap.range r (Dependencies b))).
Proof.
  assert (Hfold : UnmarshalDeps esc r b
                  = joinAll (entryText esc <$> GoMap.range r (Dependencies b))).
  { unfold UnmarshalDeps. by rewrite UnmarshalDeps_body_fold. }
  split; [exact Hfold|]. split; [apply range_perm|]. split.
  - intros Hnil. rewrite Hfold.
    pose proof (range_perm r (Dependencies b)) as Hp. rewrite Hnil in Hp.
    apply Permutation_nil_r in Hp. by rewrite Hp.
  - intros Hplain. rewrite Hfold. f_equal. clear Hfold.
    rewrite <- (range_perm r (Dependencies b)) in Hplain.
    induction Hplain as [|kv l Hkv _ IH]; [done|].
    rewrite !fmap_cons. f_equal; [by apply entryText_plain | exact IH].
Qed.

Lemma UnmarshalDeps_spec_witness :
  UnmarshalDeps Scenario.noMultibyte Scenario.backward K6Binary_zero = ""%string
  ∧ UnmarshalDeps Scenario.noMultibyte Scenario.backward Scenario.binary
    = joinAll (entryInQuotes
                 <$> GoMap.range Scenario.backward (Dependencies Scenario.binary)).
Proof.
  split.
  - destruct (UnmarshalDeps_spec Scenario.noMultibyte Scenario.backward
                K6Binary_zero) as (_ & _ & Hempty & _).
    apply Hempty. reflexivity.
  - destruct (UnmarshalDeps_spec Scenario.noMultibyte Scenario.backward
                Scenario.binary) as (_ & _ & _ & Hplain).
    apply Hplain. apply (bool_decide_unpack _). vm_compute. exact I.
Defined.

Lemma range_singleton {V} (r : GoMap.RangeOrder) (k : string) (v : V) :
  GoMap.range r (Some {[ k := v ]}) = [(k, v)].
Proof.
  apply Permutation_singleton_r.
  rewrite range_perm. simpl. by rewrite map_to_list_singleton.
Qed.

(** C10, the claim as stated fails: a version that contains a double quote
    is not copied between two quotes, the quote inside is escaped by a
    backslash. *)
Lemma UnmarshalDeps_escapes_quote :
  UnmarshalDeps Scenario.noMultibyte Scenario.forward Scenario.oddBinary
  = ("k6:" +:+ String strconv.dquote
       ("v" +:+ String strconv.backslash (String strconv.dquote
          ("1" +:+ String strconv.dquote ";"))))%string
  ∧ joinAll (entryInQuotes
               <$> GoMap.range Scenario.forward (Dependencies Scenario.oddBinary))
    = ("k6:" +:+ String strconv.dquote
         ("v" +:+ String strconv.dquote ("1" +:+ String strconv.dquote ";")))%string
  ∧ UnmarshalDeps Scenario.noMultibyte Scenario.forward Scenario.oddBinary
    ≠ joinAll (entryInQuotes
                 <$> GoMap.range Scenario.forward (Dependencies Scenario.oddBinary)).
Proof.
  split; [by vm_compute|]. split; [by vm_compute|].
  vm_compute. discriminate.
Qed.

(** The escaping does not depend on how the map is enumerated nor on the
    treatment of multi-byte runes. *)
Lemma UnmarshalDeps_escapes_quote_always (esc : string → string * nat)
    (r : GoMap.RangeOrder) :
  UnmarshalDeps esc r Scenario.oddBinary
  ≠ joinAll (entryInQuotes <$> GoMap.range r (Dependencies Scenario.oddBinary)).
Proof.
  unfold UnmarshalDeps. simpl. rewrite range_singleton.
  vm_compute. discriminate.
Qed.

(** ** The system calls *)

Ltac unfold_M :=
  unfold mbind, mret, M_bind, M_ret, bind, ret, emit, ask, getFS, putFS in *.

Lemma os_Stat_state path out st :
  (os_Stat path out st).2 = {| fs := fs st; log := log st ++ [EvStat path] |}.
Proof.
  unfold os_Stat. unfold_M. simpl.
  destruct (stat_err out path); [done|].
  destruct (existsb _ _); [done|]. by destruct (fs st !! path).
Qed.

Lemma os_Stat_result path out st st' :
  fs st = fs st' → (os_Stat path out st).1 = (os_Stat path out st').1.
Proof.
  intros Hfs. unfold os_Stat. unfold_M. simpl. rewrite Hfs.
  destruct (stat_err out path); [done|].
  destruct (existsb _ _); [done|]. by destruct (fs st' !! path).
Qed.

Lemma os_Stat_eq path out st st' :
  fs st = fs st' →
  os_Stat path out st'
  = ((os_Stat path out st).1,
     {| fs := fs st'; log := log st' ++ [EvStat path] |}).
Proof.
  intros Hfs. rewrite (os_Stat_result path out st st' Hfs).
  rewrite <- (os_Stat_state path out st'). by destruct (os_Stat path out st').
Qed.

Lemma os_MkdirAll_nonempty path perm out st :
  (os_MkdirAll path perm out st).1 = None → path ≠ ""%string.
Proof.
  unfold os_MkdirAll. unfold_M. simpl. intros H ->.
  by rewrite bool_decide_eq_true_2 in H.
Qed.

Lemma stuck_firstUnlinkError out f path :
  stuck out f path = true → is_Some (firstUnlinkError out f path).
Proof.
  unfold stuck, firstUnlinkError. generalize (map_to_list f). intros l.
  induction l as [|kv l IH]; simpl; [done|].
  destruct (filepath.inside path kv.1) eqn:Hin; simpl.
  - destruct (unlink_err out kv.1) as [errno|] eqn:He; simpl.
    + intros _. by eexists.
    + exact IH.
  - exact IH.
Qed.

Lemma inside_refl path : filepath.inside path path = true.
Proof. unfold filepath.inside. by rewrite bool_decide_eq_true_2. Qed.

(** What a successful [os.RemoveAll] leaves behind: nothing at the path. *)
Lemma os_RemoveAll_gone path out st :
  path ≠ ""%string →
  (os_RemoveAll path out st).1 = None →
  fs (os_RemoveAll path out st).2 !! path = None.
Proof.
  intros Hne. unfold os_RemoveAll. unfold_M. simpl.
  rewrite bool_decide_eq_false_2 by done.
  destruct (endsWithDot path); [done|]. simpl. intros Hok.
  apply map_lookup_filter_None. right. intros n Hn [Hout|Hstuck].
  - simpl in Hout. by rewrite inside_refl in Hout.
  - simpl in Hstuck. apply stuck_firstUnlinkError in Hstuck as [e He].
    by rewrite He in Hok.
Qed.

Lemma os_RemoveAll_log path out st :
  log (os_RemoveAll path out st).2 = log st ++ [EvRemoveAll path].
Proof.
  unfold os_RemoveAll. unfold_M. simpl.
  destruct (bool_decide (path = ""%string)); [done|].
  by destruct (endsWithDot path).
Qed.

(** ** GetBinary *)

#[local] Arguments os_Stat : simpl never.
#[local] Arguments os_MkdirAll : simpl never.
#[local] Arguments os_OpenFile : simpl never.
#[local] Arguments os_RemoveAll : simpl never.
#[local] Arguments download : simpl never.
#[local] Arguments File_Close : simpl never.
#[local] Arguments filepath.Join : simpl never.

(** Unfolds [GetBinary] up to the build call, whose answer is [Hb]. *)
Ltac enter_GetBinary Hb :=
  unfold buildResult, buildEvent, GetBinary, binPathOf, artifactDirOf in *;
  destruct (buildDeps _ _) as [c bs]; simpl in Hb |- *;
  unfold BuildService_Build; unfold_M; simpl; rewrite Hb.

Lemma GetBinary_build_error p r deps out st err :
  buildResult p r deps = inr err →
  GetBinary p r deps out st
  = ((K6Binary_zero, Some (Errorf_ww (New ErrBuild) err)),
     {| fs := fs st; log := log st ++ [buildEvent p r deps] |}).
Proof. intros Hb. by enter_GetBinary Hb. Qed.

(** C3: when the build service call fails, [GetBinary] returns the zero
    binary and an error that wraps ErrBuild and the cause; the file system
    is as before, and the only call made is the build call: no stat,
    mkdir, open, write or removal. *)
Theorem GetBinary_build_failure (p : provider) (r : GoMap.RangeOrder)
    (deps : k6deps.Dependencies) (out : Outside) (st : State) (err : error) :
  buildResult p r deps = inr err →
  (GetBinary p r deps out st).1
  = (K6Binary_zero, Some (Errorf_ww (New ErrBuild) err))
  ∧ errors_Is (Errorf_ww (New ErrBuild) err) ErrBuild = true
  ∧ fs (GetBinary p r deps out st).2 = fs st
  ∧ logged st (GetBinary p r deps out st).2 = [buildEvent p r deps]
  ∧ Forall (λ e, touchesFiles e = false) (logged st (GetBinary p r deps out st).2).
Proof.
  intros Hb. rewrite (GetBinary_build_error p r deps out st err Hb).
  unfold logged. simpl. rewrite drop_app_length.
  repeat split; try done. by repeat constructor.
Qed.

Lemma GetBinary_build_failure_witness :
  (GetBinary Scenario.provDown Scenario.forward Scenario.deps
     (Scenario.calm (inr (Foreign "unreachable"))) Scenario.fresh).1
  = (K6Binary_zero,
     Some (Errorf_ww (New ErrBuild) (Foreign "connection refused")))
  ∧ fs (GetBinary Scenario.provDown Scenario.forward Scenario.deps
          (Scenario.calm (inr (Foreign "unreachable"))) Scenario.fresh).2
    = fs Scenario.fresh.
Proof.
  destruct (GetBinary_build_failure Scenario.provDown Scenario.forward
              Scenario.deps (Scenario.calm (inr (Foreign "unreachable")))
              Scenario.fresh (Foreign "connection refused"))
    as (Hres & _ & Hfs & _).
  - reflexivity.
  - split; [exact Hres | exact Hfs].
Defined.

Lemma GetBinary_stat_hit p r deps out st artifact :
  buildResult p r deps = inl artifact →
  (os_Stat (binPathOf p artifact) out st).1 = None →
  GetBinary p r deps out st
  = ((binaryOf (binPathOf p artifact) artifact, None),
     {| fs := fs st;
        log := log st ++ [buildEvent p r deps; EvStat (binPathOf p artifact)] |}).
Proof.
  intros Hb Hs. enter_GetBinary Hb.
  set (st1 := {| fs := fs st; log := log st ++ [EvBuild (platform p) c bs] |}).
  rewrite (os_Stat_eq _ out st st1) by done. rewrite Hs. simpl.
  by rewrite <- app_assoc.
Qed.

Lemma GetBinary_stat_refused p r deps out st artifact err :
  buildResult p r deps = inl artifact →
  (os_Stat (binPathOf p artifact) out st).1 = Some err →
  os_IsNotExist err = false →
  GetBinary p r deps out st
  = ((K6Binary_zero, Some (Errorf_ww (New ErrBinary) err)),
     {| fs := fs st;
        log := log st ++ [buildEvent p r deps; EvStat (binPathOf p artifact)] |}).
Proof.
  intros Hb Hs Hne. enter_GetBinary Hb.
  set (st1 := {| fs := fs st; log := log st ++ [EvBuild (platform p) c bs] |}).
  rewrite (os_Stat_eq _ out st st1) by done. rewrite Hs. simpl.
  rewrite Hne. simpl. by rewrite <- app_assoc.
Qed.

(** C2: when stat finds something at the cache path of the artifact,
    [GetBinary] returns that path (with the artifact's dependencies and
    checksum) and no error; it has made the build call and the stat, no
    call of the download step and no call that changes the file system,
    which is as before. *)
Theorem GetBinary_cache_hit (p : provider) (r : GoMap.RangeOrder)
    (deps : k6deps.Dependencies) (out : Outside) (st : State)
    (artifact : k6build.Artifact) :
  buildResult p r deps = inl artifact →
  (os_Stat (binPathOf p artifact) out st).1 = None →
  (GetBinary p r deps out st).1
  = ({| Path := filepath.Join
                  [filepath.Join [bidDir p; k6build.ID artifact]; "k6"%string];
        Dependencies := k6build.Dependencies artifact;
        Checksum := k6build.Checksum artifact |}, None)
  ∧ fs (GetBinary p r deps out st).2 = fs st
  ∧ logged st (GetBinary p r deps out st).2
    = [buildEvent p r deps; EvStat (binPathOf p artifact)]
  ∧ Forall (λ e, isDownloadCall e = false ∧ mutatesFiles e = false)
           (logged st (GetBinary p r deps out st).2).
Proof.
  intros Hb Hs. rewrite (GetBinary_stat_hit p r deps out st artifact Hb Hs).
  unfold logged. simpl. rewrite drop_app_length.
  repeat split; try done. by repeat constructor.
Qed.

Lemma GetBinary_cache_hit_witness :
  (GetBinary Scenario.prov Scenario.forward Scenario.deps
     (Scenario.calm (inr (Foreign "unreachable"))) Scenario.cached).1
  = (Scenario.binary, None)
  ∧ fs (GetBinary Scenario.prov Scenario.forward Scenario.deps
          (Scenario.calm (inr (Foreign "unreachable"))) Scenario.cached).2
    = fs Scenario.cached.
Proof.
  destruct (GetBinary_cache_hit Scenario.prov Scenario.forward Scenario.deps
              (Scenario.calm (inr (Foreign "unreachable"))) Scenario.cached
              Scenario.artifact)
    as (Hres & Hfs & _).
  - reflexivity.
  - reflexivity.
  - split; [exact Hres | exact Hfs].
Defined.

(** C6: when stat on the cache path fails with an error other than "not
    found", [GetBinary] returns the zero binary and an error that wraps
    ErrBinary and the stat error; after the stat it makes no further call:
    no mkdir, open, write or removal, and the file system is as before. *)
Theorem GetBinary_stat_error (p : provider) (r : GoMap.RangeOrder)
    (deps : k6deps.Dependencies) (out : Outside) (st : State)
    (artifact : k6build.Artifact) (err : error) :
  buildResult p r deps = inl artifact →
  (os_Stat (binPathOf p artifact) out st).1 = Some err →
  os_IsNotExist err = false →
  (GetBinary p r deps out st).1
  = (K6Binary_zero, Some (Errorf_ww (New ErrBinary) err))
  ∧ errors_Is (Errorf_ww (New ErrBinary) err) ErrBinary = true
  ∧ fs (GetBinary p r deps out st).2 = fs st
  ∧ logged st (GetBinary p r deps out st).2
    = [buildEvent p r deps; EvStat (binPathOf p artifact)]
  ∧ Forall (λ e, mutatesFiles e = false ∧ isDownloadCall e = false)
           (logged st (GetBinary p r deps out st).2).
Proof.
  intros Hb Hs Hne.
  rewrite (GetBinary_stat_refused p r deps out st artifact err Hb Hs Hne).
  unfold logged. simpl. rewrite drop_app_length.
  repeat split; try done. by repeat constructor.
Qed.

Lemma GetBinary_stat_error_witness :
  (GetBinary Scenario.prov Scenario.forward Scenario.deps
     Scenario.statDenied Scenario.cached).1
  = (K6Binary_zero,
     Some (Errorf_ww (New ErrBinary)
             (PathError "stat" "/cache/abc123/k6" syscall.EACCES)))
  ∧ fs (GetBinary Scenario.prov Scenario.forward Scenario.deps
          Scenario.statDenied Scenario.cached).2
    = fs Scenario.cached.
Proof.
  destruct (GetBinary_stat_error Scenario.prov Scenario.forward Scenario.deps
              Scenario.statDenied Scenario.cached Scenario.artifact
              (PathError "stat" "/cache/abc123/k6" syscall.EACCES))
    as (Hres & _ & Hfs & _).
  - reflexivity.
  - reflexivity.
  - reflexivity.
  - split; [exact Hres | exact Hfs].
Defined.

(** C9: whenever [GetBinary] returns an error, the binary it returns with
    it is the zero value: empty path, nil dependencies, empty checksum. *)
Theorem GetBinary_error_zero_value (p : provider) (r : GoMap.RangeOrder)
    (deps : k6deps.Dependencies) (out : Outside) (st : State) :
  (GetBinary p r deps out st).1.2 ≠ None →
  (GetBinary p r deps out st).1.1 = K6Binary_zero.
Proof.
  unfold GetBinary. destruct (buildDeps r deps) as [c bs].
  unfold BuildService_Build. unfold_M. simpl.
  destruct (buildSrv p (platform p) c bs) as [artifact|e]; [|done].
  destruct (os_Stat _ out _) as [[e|] st2]; [|done].
  destruct (os_IsNotExist e); simpl; [|done].
  destruct (os_MkdirAll _ _ out st2) as [[e1|] st3]; [done|].
  destruct (os_OpenFile _ _ _ out st3) as [[target|e2] st4]; [|done].
  destruct (download p _ target out st4) as [[e3|] st5].
  - by destruct (os_RemoveAll _ out st5).
  - by destruct (File_Close target out st5).
Qed.

Lemma GetBinary_error_zero_value_witness :
  (GetBinary Scenario.prov Scenario.forward Scenario.deps
     (Scenario.calm (inl (Scenario.response 500 "" None))) Scenario.fresh).1.1
  = K6Binary_zero.
Proof.
  apply (GetBinary_error_zero_value Scenario.prov Scenario.forward Scenario.deps
           (Scenario.calm (inl (Scenario.response 500 "" None))) Scenario.fresh).
  vm_compute. discriminate.
Defined.

(** ** Cleaned paths *)

Lemma Split_nonempty s : filepath.Split s ≠ [].
Proof.
  destruct s as [|c s]; simpl; [done|].
  destruct (bool_decide (c = "/"%char)); [done|]. by destruct (filepath.Split s).
Qed.

Lemma Split_app_slash s t :
  filepath.Split (s +:+ "/" +:+ t) = filepath.Split s ++ filepath.Split t.
Proof.
  change ("/" +:+ t)%string with (String "/" t).
  induction s as [|c s IH]; [done|].
  rewrite string_app_cons. simpl. rewrite IH.
  destruct (bool_decide (c = "/"%char)); [done|].
  pose proof (Split_nonempty s). by destruct (filepath.Split s).
Qed.

Lemma Split_noSlash s :
  Forall (λ e, "/"%char ∉ list_ascii_of_string e) (filepath.Split s).
Proof.
  induction s as [|c s IH]; simpl.
  - repeat constructor. by intros ?%elem_of_nil.
  - destruct (bool_decide (c = "/"%char)) eqn:Hc.
    + constructor; [|done]. by intros ?%elem_of_nil.
    + apply bool_decide_eq_false in Hc.
      destruct (filepath.Split s) as [|e es].
      * repeat constructor. simpl. intros [?| ?%elem_of_nil]%elem_of_cons; done.
      * apply Forall_cons in IH as [He Hes]. constructor; [|done].
        simpl. intros [?|?]%elem_of_cons; done.
Qed.

Lemma Split_plain e :
  "/"%char ∉ list_ascii_of_string e → filepath.Split e = [e].
Proof.
  induction e as [|c e IH]; simpl; [done|].
  intros Hno. rewrite bool_decide_eq_false_2.
  - rewrite IH; [done|]. intros ?. apply Hno. by right.
  - intros ->. apply Hno. by left.
Qed.

Lemma concat_cons2 sep (e e' : string) es :
  String.concat sep (e :: e' :: es) = e +:+ sep +:+ String.concat sep (e' :: es).
Proof. reflexivity. Qed.

Lemma Split_concat es :
  es ≠ [] → Forall (λ e, "/"%char ∉ list_ascii_of_string e) es →
  filepath.Split (String.concat "/" es) = es.
Proof.
  induction es as [|e es IH]; [done|]. intros _ [He Hes]%Forall_cons.
  destruct es as [|e' es].
  - by apply Split_plain.
  - rewrite concat_cons2, Split_app_slash, Split_plain by done.
    rewrite IH; done.
Qed.

Lemma plainElem_k6 : plainElem "k6".
Proof.
  repeat split; try done.
  simpl. intros H. repeat (apply elem_of_cons in H as [H|H]; [done|]).
  by apply elem_of_nil in H.
Qed.

Lemma cleanElems_push rooted out e rest :
  plainElem e →
  filepath.cleanElems rooted out (e :: rest)
  = filepath.cleanElems rooted (e :: out) rest.
Proof.
  intros (H1 & H2 & H3 & _). simpl.
  by rewrite !bool_decide_eq_false_2 by done.
Qed.

Lemma cleanElems_plain rooted out es rest :
  Forall plainElem es →
  filepath.cleanElems rooted out (es ++ rest)
  = filepath.cleanElems rooted (reverse es ++ out) rest.
Proof.
  intros Hes. revert out. induction Hes as [|e es He _ IH]; intros out; [done|].
  rewrite <- app_comm_cons, cleanElems_push by done.
  rewrite IH, reverse_cons. by rewrite <- app_assoc.
Qed.

Lemma cleanElems_dots m n rest :
  filepath.cleanElems false (replicate m ".."%string)
                      (replicate n ".."%string ++ rest)
  = filepath.cleanElems false (replicate (n + m) ".."%string) rest.
Proof.
  revert m. induction n as [|n IH]; intros m; [done|].
  replace (S n + m) with (n + S m) by lia. rewrite <- IH.
  destruct m; reflexivity.
Qed.

Lemma cleanElems_fixed rooted out rest :
  cleanStack rooted out →
  filepath.cleanElems rooted [] (reverse out ++ rest)
  = filepath.cleanElems rooted out rest.
Proof.
  intros (reals & n & -> & Hreals & Hn).
  rewrite reverse_app, reverse_replicate, <- app_assoc.
  assert (Hplain : ∀ o,
    filepath.cleanElems rooted o (reverse reals ++ rest)
    = filepath.cleanElems rooted (reals ++ o) rest).
  { intros o. rewrite cleanElems_plain by by apply Forall_reverse.
    by rewrite reverse_involutive. }
  destruct rooted.
  - rewrite Hn by done. simpl. rewrite Hplain. by rewrite app_nil_r.
  - rewrite (cleanElems_dots 0 n). rewrite Nat.add_0_r. by rewrite Hplain.
Qed.

Lemma cleanStack_nil rooted : cleanStack rooted [].
Proof. exists [], 0. by repeat split. Qed.

Lemma cleanElems_cleanStack rooted out elems :
  cleanStack rooted out →
  Forall (λ e, "/"%char ∉ list_ascii_of_string e) elems →
  ∃ out', filepath.cleanElems rooted out elems = reverse out'
          ∧ cleanStack rooted out'.
Proof.
  intros Hout Hel. revert out Hout.
  induction Hel as [|e elems He _ IH]; intros out Hout; simpl.
  { by exists out. }
  destruct (bool_decide (e = ""%string)) eqn:H1; simpl; [by apply IH|].
  destruct (bool_decide (e = "."%string)) eqn:H2; simpl; [by apply IH|].
  apply bool_decide_eq_false in H1, H2.
  destruct (bool_decide (e = ".."%string)) eqn:H3.
  - apply bool_decide_eq_true in H3 as ->.
    destruct Hout as (reals & n & -> & Hreals & Hn).
    destruct reals as [|top reals]; simpl.
    + destruct n as [|n]; simpl.
      * destruct rooted; apply IH.
        -- apply cleanStack_nil.
        -- exists [], 1. by repeat split.
      * apply IH.
        exists [], (S (S n)). repeat split; [done|].
        intros Hr. specialize (Hn Hr). lia.
    + apply Forall_cons in Hreals as [(_ & _ & Htop & _) Hreals].
      rewrite bool_decide_eq_false_2 by done. apply IH.
      by exists reals, n.
  - apply bool_decide_eq_false in H3. apply IH.
    destruct Hout as (reals & n & -> & Hreals & Hn).
    exists (e :: reals), n. repeat split; [|done].
    constructor; [|done]. by repeat split.
Qed.

(** What [Clean] returns: a rendering of a clean stack. *)
Lemma Clean_shape x :
  ∃ out, filepath.Clean x = filepath.render (filepath.isRooted x) (reverse out)
         ∧ cleanStack (filepath.isRooted x) out.
Proof.
  unfold filepath.Clean.
  destruct (cleanElems_cleanStack (filepath.isRooted x) [] (filepath.Split x))
    as (out & Heq & Hout).
  - apply cleanStack_nil.
  - apply Split_noSlash.
  - exists out. by rewrite Heq.
Qed.

Lemma cleanStack_elems rooted out :
  cleanStack rooted out →
  Forall (λ e, e ≠ ""%string ∧ "/"%char ∉ list_ascii_of_string e) (reverse out).
Proof.
  intros (reals & n & -> & Hreals & _). apply Forall_reverse, Forall_app. split.
  - eapply Forall_impl; [exact Hreals|]. by intros e (? & _ & _ & ?).
  - apply Forall_replicate. split; [done|]. simpl.
    intros H. repeat (apply elem_of_cons in H as [H|H]; [done|]).
    by apply elem_of_nil in H.
Qed.

Lemma isRooted_app e t :
  e ≠ ""%string → filepath.isRooted (e +:+ t) = filepath.isRooted e.
Proof. by destruct e. Qed.

Lemma isRooted_noSlash e :
  "/"%char ∉ list_ascii_of_string e → filepath.isRooted e = false.
Proof.
  destruct e as [|c e]; [done|]. simpl. intros H.
  apply bool_decide_eq_false_2. intros ->. apply H. by left.
Qed.

Lemma concat_nonempty e es :
  e ≠ ""%string → String.concat "/" (e :: es) ≠ ""%string.
Proof. destruct es; [done|]. rewrite concat_cons2. by destruct e. Qed.

Lemma isRooted_concat e es :
  e ≠ ""%string → "/"%char ∉ list_ascii_of_string e →
  filepath.isRooted (String.concat "/" (e :: es)) = false.
Proof.
  intros Hne Hno. destruct es as [|e' es].
  - by apply isRooted_noSlash.
  - rewrite concat_cons2, isRooted_app by done. by apply isRooted_noSlash.
Qed.

Lemma isRooted_render rooted es t :
  Forall (λ e, e ≠ ""%string ∧ "/"%char ∉ list_ascii_of_string e) es →
  filepath.isRooted (filepath.render rooted es +:+ t) = rooted.
Proof.
  intros Hes. unfold filepath.render. destruct rooted; [done|].
  destruct Hes as [|e es [Hne Hno] _]; [done|].
  rewrite isRooted_app by by apply concat_nonempty.
  by apply isRooted_concat.
Qed.

Lemma cleanElems_render rooted es rest :
  Forall (λ e, e ≠ ""%string ∧ "/"%char ∉ list_ascii_of_string e) es →
  filepath.cleanElems rooted [] (filepath.Split (filepath.render rooted es) ++ rest)
  = filepath.cleanElems rooted [] (es ++ rest).
Proof.
  intros Hes. unfold filepath.render. destruct rooted.
  - rewrite <- (string_app_nil_l ("/" +:+ String.concat "/" es)).
    rewrite Split_app_slash. destruct es as [|e es]; [done|].
    rewrite Split_concat; [done|done|].
    eapply Forall_impl; [exact Hes|]. by intros ? [_ ?].
  - destruct es as [|e es]; [done|].
    rewrite Split_concat; [done|done|].
    eapply Forall_impl; [exact Hes|]. by intros ? [_ ?].
Qed.

(** Appending the binary's name to a cleaned path and cleaning again adds
    one element. *)
Lemma Clean_render_k6 rooted out :
  cleanStack rooted out →
  filepath.Clean (filepath.render rooted (reverse out) +:+ "/" +:+ k6Binary)
  = filepath.render rooted (reverse out ++ [k6Binary]).
Proof.
  intros Hout. pose proof (cleanStack_elems rooted out Hout) as Hes.
  unfold filepath.Clean. rewrite isRooted_render by done. f_equal.
  rewrite Split_app_slash, cleanElems_render by done.
  rewrite cleanElems_fixed by done.
  change (filepath.Split k6Binary) with [k6Binary].
  rewrite cleanElems_push by apply plainElem_k6. simpl.
  by rewrite reverse_cons.
Qed.

Lemma prefix_app (a b : string) : String.prefix a (a +:+ b) = true.
Proof.
  induction a as [|c a IH]; [by destruct b|].
  rewrite string_app_cons. simpl. destruct (ascii_dec c c); [exact IH|done].
Qed.

Lemma concat_snoc (e : string) es x :
  String.concat "/" ((e :: es) ++ [x])
  = String.concat "/" (e :: es) +:+ "/" +:+ x.
Proof.
  revert e. induction es as [|e' es IH]; intros e; [done|].
  rewrite <- !app_comm_cons, !concat_cons2.
  rewrite app_comm_cons, IH. by rewrite !string_app_assoc.
Qed.

Lemma inside_render rooted es :
  filepath.render rooted es ≠ "."%string →
  filepath.inside (filepath.render rooted es)
                  (filepath.render rooted (es ++ [k6Binary])) = true.
Proof.
  intros Hdot. unfold filepath.inside. apply orb_true_iff. right.
  destruct es as [|e es].
  - destruct rooted; [done|]. by destruct Hdot.
  - assert (Hr : filepath.render rooted ((e :: es) ++ [k6Binary])
                 = filepath.render rooted (e :: es) +:+ "/" +:+ k6Binary).
    { unfold filepath.render. rewrite concat_snoc.
      destruct rooted; [by rewrite !string_app_assoc|done]. }
    rewrite Hr. destruct (bool_decide _) eqn:Hroot.
    + apply bool_decide_eq_true in Hroot. rewrite Hroot. reflexivity.
    + rewrite <- string_app_assoc. apply prefix_app.
Qed.

Lemma Join_cons e rest :
  filepath.Join (e :: rest)
  = if bool_decide (e = ""%string) then filepath.Join rest
    else filepath.Clean (String.concat "/" (e :: rest)).
Proof. reflexivity. Qed.

Lemma Join_shape elem :
  filepath.Join elem = ""%string ∨ ∃ x, filepath.Join elem = filepath.Clean x.
Proof.
  induction elem as [|e rest IH]; [by left|].
  rewrite Join_cons. destruct (bool_decide (e = ""%string)); [exact IH|].
  right. by eexists.
Qed.

(** The binary's path lies below the artifact directory. *)
Lemma binPath_inside p artifact :
  artifactDirOf p artifact ≠ ""%string →
  artifactDirOf p artifact ≠ "."%string →
  filepath.inside (artifactDirOf p artifact) (binPathOf p artifact) = true.
Proof.
  unfold binPathOf. intros Hne Hdot.
  destruct (Join_shape [bidDir p; k6build.ID artifact]) as [Hempty|[x Hx]];
    [done|].
  fold (artifactDirOf p artifact) in Hx. revert Hne Hdot.
  generalize dependent (artifactDirOf p artifact). intros d -> Hne Hdot.
  destruct (Clean_shape x) as (out & Hshape & Hout).
  rewrite Join_cons, bool_decide_eq_false_2 by done.
  change (String.concat "/" [filepath.Clean x; k6Binary])
    with (filepath.Clean x +:+ "/" +:+ k6Binary).
  rewrite Hshape in Hdot |- *. rewrite Clean_render_k6 by done.
  by apply inside_render.
Qed.

Lemma prefix_trans (a b c : string) :
  String.prefix a b = true → String.prefix b c = true → String.prefix a c = true.
Proof.
  revert a b. induction c as [|z c IH]; intros a b.
  - destruct b as [|y b]; [|by destruct a]. by destruct a.
  - destruct a as [|x a]; [done|]. destruct b as [|y b]; [done|]. simpl.
    destruct (ascii_dec x y) as [->|]; [|done].
    destruct (ascii_dec y z) as [->|]; [|done]. apply IH.
Qed.

Lemma inside_trans (a b c : string) :
  filepath.inside a b = true → filepath.inside b c = true →
  filepath.inside a c = true.
Proof.
  unfold filepath.inside.
  intros [->%bool_decide_eq_true|Hab]%orb_true_iff; [done|].
  intros [->%bool_decide_eq_true|Hbc]%orb_true_iff.
  { by rewrite Hab, orb_true_r. }
  apply orb_true_iff. right.
  eapply prefix_trans; [exact Hab|]. eapply prefix_trans; [|exact Hbc].
  destruct (bool_decide (b = "/"%string)).
  - rewrite <- (string_app_nil_r b) at 2. apply prefix_app.
  - apply prefix_app.
Qed.

Lemma stuck_below out f dir path :
  filepath.inside dir path = true →
  stuck out f path = true → is_Some (firstUnlinkError out f dir).
Proof.
  intros Hin Hstuck. apply stuck_firstUnlinkError. revert Hstuck.
  unfold stuck. generalize (map_to_list f). intros l.
  induction l as [|kv l IH]; simpl; [done|].
  intros [[Hq Hpin]%andb_true_iff|Hrest]%orb_true_iff; apply orb_true_iff.
  - left. apply andb_true_iff. split; [|done]. by eapply inside_trans.
  - right. by apply IH.
Qed.

(** What a successful [os.RemoveAll] leaves behind: nothing at the path
    and nothing below it. *)
Lemma os_RemoveAll_gone_below dir path out st :
  dir ≠ ""%string →
  (os_RemoveAll dir out st).1 = None →
  filepath.inside dir path = true →
  fs (os_RemoveAll dir out st).2 !! path = None.
Proof.
  intros Hne. unfold os_RemoveAll. unfold_M. simpl.
  rewrite bool_decide_eq_false_2 by done.
  destruct (endsWithDot dir); [done|]. simpl. intros Hok Hin.
  apply map_lookup_filter_None. right. intros n Hn [Hout|Hstuck]; simpl in *.
  - by rewrite Hin in Hout.
  - apply (stuck_below out (fs st) dir path Hin) in Hstuck as [e He].
    by rewrite He in Hok.
Qed.

Lemma os_RemoveAll_ok_not_dot dir out st :
  (os_RemoveAll dir out st).1 = None → dir ≠ "."%string.
Proof.
  unfold os_RemoveAll. unfold_M. simpl. by intros H ->.
Qed.

(** ** The download step *)

(** The three failures that [download] wraps itself. *)
Lemma download_wrapped p from dest out st err st' :
  download p from dest out st = (Some err, st') →
  is_Some (newRequest_err out from)
  ∨ (∃ e, roundTrip out (client p) from = inr e)
  ∨ (∃ resp, roundTrip out (client p) from = inl resp
             ∧ StatusCode resp ≠ http_StatusOK) →
  errors_Is err ErrDownload = true.
Proof.
  unfold download, http_NewRequest, Client_Do. unfold_M. simpl.
  intros Hd Hkind.
  destruct (newRequest_err out from) as [e|] eqn:Hreq.
  { by simplify_eq. }
  destruct (roundTrip out (client p) from) as [resp|e] eqn:Hrt.
  2:{ by simplify_eq. }
  destruct (bool_decide (StatusCode resp ≠ http_StatusOK)) eqn:Hst.
  { by simplify_eq. }
  apply bool_decide_eq_false in Hst.
  destruct Hkind as [[? ?]|[[e ?]|(resp' & ? & Hne)]]; simplify_eq.
  by destruct Hst.
Qed.

(** [GetBinary] on a run that reaches the download step and fails there. *)
Lemma GetBinary_download_error p r deps out st artifact err :
  reachesDownload p r deps out st artifact →
  (downloadStep p r deps out st artifact).1 = Some err →
  GetBinary p r deps out st
  = ((K6Binary_zero, Some err), (removeStep p r deps out st artifact).2)
  ∧ artifactDirOf p artifact ≠ ""%string.
Proof.
  unfold reachesDownload, removeStep, downloadStep, openStep, mkdirStep,
    statStep, afterBuild, buildResult, buildEvent, openFlag, openPerm,
    GetBinary, binPathOf, artifactDirOf.
  destruct (buildDeps r deps) as [c bs].
  unfold BuildService_Build. unfold_M. simpl.
  intros (-> & (e & Hstat & Hne) & Hmk & Hopen) Hdl. revert Hstat Hmk Hopen Hdl.
  destruct (os_Stat _ out _) as [serr sta]. simpl. intros ->. rewrite Hne. simpl.
  destruct (os_MkdirAll _ _ out sta) as [merr stb] eqn:Hmkdir. simpl. intros ->.
  destruct (os_OpenFile _ _ _ out stb) as [ores stc]. simpl. intros ->.
  destruct (download p _ _ out stc) as [derr std]. simpl. intros ->.
  split.
  - by destruct (os_RemoveAll _ out std).
  - apply (os_MkdirAll_nonempty _ syscall.S_IRWXU out sta). by rewrite Hmkdir.
Qed.

(** C1 (as amended): when the download step fails, whatever the failure,
    [GetBinary] returns the zero binary and the error of the download
    step, and its last action is to call RemoveAll on the artifact
    directory, whose result it ignores; when that removal reports no
    error, neither the directory nor the binary file exists afterwards;
    and when the failure
    is a request construction error, a transport error or a status other
    than 200, the returned error wraps ErrDownload. *)
Theorem GetBinary_download_failure (p : provider) (r : GoMap.RangeOrder)
    (deps : k6deps.Dependencies) (out : Outside) (st : State)
    (artifact : k6build.Artifact) (err : error) :
  reachesDownload p r deps out st artifact →
  (downloadStep p r deps out st artifact).1 = Some err →
  (GetBinary p r deps out st).1 = (K6Binary_zero, Some err)
  ∧ (GetBinary p r deps out st).2 = (removeStep p r deps out st artifact).2
  ∧ last (log (GetBinary p r deps out st).2)
    = Some (EvRemoveAll (artifactDirOf p artifact))
  ∧ ((removeStep p r deps out st artifact).1 = None →
     fs (GetBinary p r deps out st).2 !! artifactDirOf p artifact = None
     ∧ fs (GetBinary p r deps out st).2 !! binPathOf p artifact = None)
  ∧ (is_Some (newRequest_err out (k6build.URL artifact))
     ∨ (∃ e, roundTrip out (client p) (k6build.URL artifact) = inr e)
     ∨ (∃ resp, roundTrip out (client p) (k6build.URL artifact) = inl resp
                ∧ StatusCode resp ≠ http_StatusOK) →
     errors_Is err ErrDownload = true).
Proof.
  intros Hreach Hdl.
  destruct (GetBinary_download_error p r deps out st artifact err Hreach Hdl)
    as [Hrun Hne].
  rewrite Hrun. simpl. split; [done|]. split; [done|]. split; [|split].
  - unfold removeStep. rewrite os_RemoveAll_log. apply last_snoc.
  - intros Hok. split; [by apply os_RemoveAll_gone|].
    apply os_RemoveAll_gone_below; [done..|].
    apply binPath_inside; [done|]. by eapply os_RemoveAll_ok_not_dot.
  - apply (download_wrapped p (k6build.URL artifact) (binPathOf p artifact) out
             (openStep p r deps out st artifact).2 err
             (downloadStep p r deps out st artifact).2).
    rewrite <- Hdl. unfold downloadStep. by destruct (download _ _ _ _ _).
Qed.

Lemma GetBinary_download_failure_witness :
  (GetBinary Scenario.prov Scenario.forward Scenario.deps
     (Scenario.calm (inl (Scenario.response 500 "" None))) Scenario.fresh).1
  = (K6Binary_zero,
     Some (Errorf_ws (New ErrDownload) "https://svc/abc123/k6"))
  ∧ fs (GetBinary Scenario.prov Scenario.forward Scenario.deps
          (Scenario.calm (inl (Scenario.response 500 "" None))) Scenario.fresh).2
       !! "/cache/abc123"%string = None
  ∧ errors_Is (Errorf_ws (New ErrDownload) "https://svc/abc123/k6") ErrDownload
    = true.
Proof.
  destruct (GetBinary_download_failure Scenario.prov Scenario.forward
              Scenario.deps
              (Scenario.calm (inl (Scenario.response 500 "" None)))
              Scenario.fresh Scenario.artifact
              (Errorf_ws (New ErrDownload) "https://svc/abc123/k6"))
    as (Hres & _ & _ & Hgone & Hclass).
  - split; [reflexivity|]. split; [|split; reflexivity].
    exists (PathError "stat" "/cache/abc123/k6" syscall.ENOENT).
    split; reflexivity.
  - reflexivity.
  - split; [exact Hres|]. split.
    + apply (proj1 (Hgone eq_refl)).
    + apply Hclass. right. right.
      exists (Scenario.response 500 "" None). split; [reflexivity|].
      unfold http_StatusOK. simpl. discriminate.
Defined.

(** C1, the claim as stated fails in two ways.  First scenario: the
    download answers 500 and the artifact directory, which was there
    before the call, cannot be unlinked; the directory is still there
    afterwards.  Second scenario: the download answers 200 and the body
    breaks off; the directory is removed, but the error returned is the
    bare copy error, which does not wrap ErrDownload. *)
Lemma GetBinary_download_failure_leftovers :
  ((GetBinary Scenario.prov Scenario.forward Scenario.deps
      (Scenario.dirPinned (inl (Scenario.response 500 "" None)))
      Scenario.emptyDir).1
   = (K6Binary_zero,
      Some (Errorf_ws (New ErrDownload) "https://svc/abc123/k6"))
   ∧ fs (GetBinary Scenario.prov Scenario.forward Scenario.deps
           (Scenario.dirPinned (inl (Scenario.response 500 "" None)))
           Scenario.emptyDir).2
        !! "/cache/abc123"%string = Some (Dir 448))
  ∧ ((GetBinary Scenario.prov Scenario.forward Scenario.deps
        (Scenario.calm
           (inl (Scenario.response 200 "ELF" (Some (Foreign "unexpected EOF")))))
        Scenario.fresh).1
     = (K6Binary_zero, Some (Foreign "unexpected EOF"))
     ∧ fs (GetBinary Scenario.prov Scenario.forward Scenario.deps
             (Scenario.calm
                (inl (Scenario.response 200 "ELF"
                        (Some (Foreign "unexpected EOF")))))
             Scenario.fresh).2
          !! "/cache/abc123"%string = None
     ∧ errors_Is (Foreign "unexpected EOF") ErrDownload = false).
Proof.
  split; [split|split; [|split]]; by vm_compute.
Qed.

(** ** NewProvider *)

(** C8 (as amended): when the proxy URL in effect (the configured one, or
    else the environment's) is not empty and [url.Parse] rejects it,
    [NewProvider] returns no provider and an error that wraps ErrConfig
    and the parse error; no provider exists on which GetBinary could be
    called. *)
Theorem NewProvider_malformed_proxy (env : Env) (config : Config) (err : error) :
  effectiveProxyURL env config ≠ ""%string →
  url_Parse env (effectiveProxyURL env config) = inr err →
  NewProvider env config = (None, Some (Errorf_ww (New ErrConfig) err))
  ∧ errors_Is (Errorf_ww (New ErrConfig) err) ErrConfig = true.
Proof.
  unfold effectiveProxyURL, NewProvider. intros Hne Hparse.
  split; [|done].
  destruct (bool_decide (DownloadProxyURL config = ""%string));
    rewrite bool_decide_eq_true_2 by done; by rewrite Hparse.
Qed.

Lemma NewProvider_malformed_proxy_witness :
  NewProvider (Scenario.env ":3128") Scenario.config
  = (None, Some (Errorf_ww (New ErrConfig) (Foreign "missing protocol scheme")))
  ∧ errors_Is (Errorf_ww (New ErrConfig) (Foreign "missing protocol scheme"))
              ErrConfig = true.
Proof.
  apply (NewProvider_malformed_proxy (Scenario.env ":3128") Scenario.config).
  - vm_compute. discriminate.
  - reflexivity.
Defined.

(** C8, the claim as stated fails: a proxy setting can be malformed and
    still pass [url.Parse].  With [http//proxy:3128] in the environment
    [NewProvider] returns a provider and no error; the setting shows to
    be unusable only when [GetBinary] downloads, as an error that wraps
    ErrDownload and not ErrConfig. *)
Lemma NewProvider_accepts_malformed_proxy :
  effectiveProxyURL (Scenario.env Cases.proxyNoColon) Scenario.config
  = Cases.proxyNoColon
  ∧ Cases.proxyNoColon ≠ ""%string
  ∧ malformedProxyURL Cases.proxyNoColon = true
  ∧ NewProvider (Scenario.env Cases.proxyNoColon) Scenario.config
    = (Some Cases.proxyProv, None)
  ∧ (GetBinary Cases.proxyProv Scenario.forward Scenario.deps
       Cases.proxyUnreachable Cases.bare).1
    = (K6Binary_zero,
       Some (Errorf_ww (New ErrDownload)
               (Foreign "proxyconnect tcp: connection refused")))
  ∧ errors_Is (Errorf_ww (New ErrDownload)
                 (Foreign "proxyconnect tcp: connection refused")) ErrConfig
    = false.
Proof.
  split; [reflexivity|]. split; [discriminate|]. split; [reflexivity|].
  split; [reflexivity|]. split; reflexivity.
Qed.

(** ** A complete run *)

(** On an empty cache and a download that answers 200, [GetBinary] makes
    the directory, writes the body to the binary and returns its path with
    the artifact's checksum. *)
Example GetBinary_fresh_download :
  let run := GetBinary Scenario.prov Scenario.forward Scenario.deps
               (Scenario.calm (inl (Scenario.response 200 "ELF" None)))
               Scenario.fresh in
  run.1 = (Scenario.binary, None)
  ∧ fs run.2 !! "/cache/abc123"%string = Some (Dir syscall.S_IRWXU)
  ∧ fs run.2 !! "/cache/abc123/k6"%string = Some (File 448 "ELF")
  ∧ log run.2
    = [ EvBuild "linux/amd64" ">=0.50.0"
          [ {| k6build.Name := "k6/x/kubernetes"; k6build.Constraints := ">0.8" |};
            {| k6build.Name := "k6/x/sql"; k6build.Constraints := "*" |} ];
        EvStat "/cache/abc123/k6";
        EvMkdirAll "/cache/abc123" 448;
        EvOpenFile "/cache/abc123/k6" 65 448;
        EvNewRequest "https://svc/abc123/k6";
        EvDo DefaultClient "https://svc/abc123/k6";
        EvCopy "/cache/abc123/k6" "ELF";
        EvBodyClose "https://svc/abc123/k6";
        EvClose "/cache/abc123/k6" ].
Proof. repeat split; by vm_compute. Qed.

(** * Further properties *)

(** ** GetBinary, stage by stage *)

Lemma os_OpenFile_target path flag perm out st target :
  (os_OpenFile path flag perm out st).1 = inl target → target = path.
Proof.
  unfold os_OpenFile. unfold_M. simpl.
  destruct (open_err out path); [done|].
  destruct (existsb _ _); [done|].
  destruct (fs st !! path) as [[?|? ?]|]; simpl; try done.
  - by intros [= <-].
  - destruct (parentExists _ _); simpl; [|done]. by intros [= <-].
Qed.

(** Every path through [GetBinary], in terms of the stages. *)
Lemma GetBinary_stages p r deps out st :
  GetBinary p r deps out st
  = match buildResult p r deps with
    | inr err =>
        ((K6Binary_zero, Some (Errorf_ww (New ErrBuild) err)),
         afterBuild p r deps st)
    | inl artifact =>
        match (statStep p r deps out st artifact).1 with
        | None =>
            ((binaryOf (binPathOf p artifact) artifact, None),
             (statStep p r deps out st artifact).2)
        | Some e =>
            if negb (os_IsNotExist e) then
              ((K6Binary_zero, Some (Errorf_ww (New ErrBinary) e)),
               (statStep p r deps out st artifact).2)
            else
              match (mkdirStep p r deps out st artifact).1 with
              | Some e' =>
                  ((K6Binary_zero, Some (Errorf_ww (New ErrBinary) e')),
                   (mkdirStep p r deps out st artifact).2)
              | None =>
                  match (openStep p r deps out st artifact).1 with
                  | inr e' =>
                      ((K6Binary_zero, Some (Errorf_ww (New ErrBinary) e')),
                       (openStep p r deps out st artifact).2)
                  | inl _ =>
                      match (downloadStep p r deps out st artifact).1 with
                      | Some e' =>
                          ((K6Binary_zero, Some e'),
                           (removeStep p r deps out st artifact).2)
                      | None =>
                          ((binaryOf (binPathOf p artifact) artifact, None),
                           (closeStep p r deps out st artifact).2)
                      end
                  end
              end
        end
    end.
Proof.
  unfold closeStep, removeStep, downloadStep.
  destruct (buildResult p r deps) as [artifact|err] eqn:Hb.
  2:{ unfold afterBuild. by apply GetBinary_build_error. }
  pose proof (os_OpenFile_target (binPathOf p artifact) openFlag openPerm out
                (mkdirStep p r deps out st artifact).2) as Htarget.
  fold (openStep p r deps out st artifact) in Htarget. revert Htarget.
  unfold openStep, mkdirStep, statStep, afterBuild, buildResult, buildEvent,
    openFlag, openPerm, GetBinary, binPathOf, artifactDirOf in *.
  destruct (buildDeps r deps) as [c bs]. simpl in Hb |- *.
  unfold BuildService_Build. unfold_M. simpl. rewrite Hb.
  destruct (os_Stat _ out _) as [[e|] sta]; simpl; [|done].
  destruct (os_IsNotExist e); simpl; [|done].
  destruct (os_MkdirAll _ _ out sta) as [[e1|] stb]; simpl; [done|].
  destruct (os_OpenFile _ _ _ out stb) as [[target|e2] stc]; simpl; [|done].
  intros Htarget. rewrite (Htarget target eq_refl).
  destruct (download p _ _ out stc) as [[e3|] std]; simpl.
  - by destruct (os_RemoveAll _ out std).
  - done.
Qed.

(** ** What each call does to the state *)

Lemma foldl_mkdirOne_lookup perm (l : list string) (f : gmap string Node) q :
  foldl (mkdirOne perm) f l !! q
  = match f !! q with
    | Some n => Some n
    | None => if decide (q ∈ l) then Some (Dir perm) else None
    end.
Proof.
  revert f. induction l as [|x l IH]; intros f; simpl.
  - by destruct (f !! q).
  - rewrite IH. unfold mkdirOne. destruct (f !! x) eqn:Hx.
    + destruct (f !! q) eqn:Hq; [done|].
      destruct (decide (q ∈ l)) as [Hin|Hin].
      * rewrite decide_True; [done|by right].
      * destruct (decide (q ∈ x :: l)) as [[->|?]%elem_of_cons|?]; try done.
        congruence.
    + destruct (decide (x = q)) as [->|Hne].
      * rewrite lookup_insert_eq, Hx. rewrite decide_True; [done|by left].
      * rewrite lookup_insert_ne by done. destruct (f !! q); [done|].
        destruct (decide (q ∈ l)) as [Hin|Hin].
        -- rewrite decide_True; [done|by right].
        -- rewrite decide_False; [done|].
           intros [?|?]%elem_of_cons; congruence.
Qed.

Lemma os_MkdirAll_log path perm out st :
  log (os_MkdirAll path perm out st).2 = log st ++ [EvMkdirAll path perm].
Proof.
  unfold os_MkdirAll. unfold_M. simpl.
  by destruct (bool_decide _).
Qed.

Lemma existsb_false {A} (f : A → bool) (l : list A) :
  existsb f l = false ↔ ∀ x, x ∈ l → f x = false.
Proof.
  induction l as [|a l IH]; simpl.
  - split; [|done]. by intros _ x ?%elem_of_nil.
  - rewrite orb_false_iff, IH. split.
    + intros [Ha Hl] x [->|Hx]%elem_of_cons; auto.
    + intros H. split; [apply H; by left|]. intros x Hx. apply H. by right.
Qed.

(** A walk that succeeds has made every missing directory and met no
    regular file. *)
Lemma mkdirChain_made out perm (l : list string) (f : gmap string Node) :
  (mkdirChain out perm l f).1 = None →
  (mkdirChain out perm l f).2 = foldl (mkdirOne perm) f l
  ∧ existsb (isFile f) l = false.
Proof.
  revert f. induction l as [|d l IH]; intros f; simpl; [done|].
  unfold mkdirOne, isFile at 1.
  destruct (f !! d) as [[m|m data]|] eqn:Hd; simpl; [by apply IH|done|].
  destruct (mkdir_err out d); [done|].
  intros Hok. destruct (IH _ Hok) as [-> Hnf]. split; [done|].
  apply existsb_false. intros q Hq.
  pose proof (proj1 (existsb_false _ _) Hnf q Hq) as Hnq.
  unfold isFile in *. destruct (decide (d = q)) as [<-|Hne].
  - by rewrite Hd.
  - by rewrite lookup_insert_ne in Hnq.
Qed.

(** Whether it succeeds or not, a walk keeps every entry that is there and
    adds nothing but directories of the walk. *)
Lemma mkdirChain_lookup out perm (l : list string) (f : gmap string Node) q :
  (mkdirChain out perm l f).2 !! q = f !! q
  ∨ (f !! q = None ∧ q ∈ l
     ∧ (mkdirChain out perm l f).2 !! q = Some (Dir perm)).
Proof.
  revert f. induction l as [|d l IH]; intros f; simpl; [by left|].
  destruct (f !! d) as [[m|m data]|] eqn:Hd; simpl.
  - destruct (IH f) as [H|(H1 & H2 & H3)]; [by left|].
    right. repeat split; [done|by right|done].
  - by left.
  - destruct (mkdir_err out d); simpl; [by left|].
    destruct (decide (d = q)) as [<-|Hne].
    + right. split; [done|]. split; [by left|].
      destruct (IH (<[d := Dir perm]> f)) as [H|(H1 & _)].
      * by rewrite H, lookup_insert_eq.
      * by rewrite lookup_insert_eq in H1.
    + destruct (IH (<[d := Dir perm]> f)) as [H|(H1 & H2 & H3)].
      * left. by rewrite H, lookup_insert_ne.
      * right. rewrite lookup_insert_ne in H1 by done.
        repeat split; [done|by right|done].
Qed.

Lemma os_MkdirAll_lookup path perm out st q :
  fs (os_MkdirAll path perm out st).2 !! q = fs st !! q
  ∨ (fs st !! q = None ∧ q ∈ filepath.upTo path
     ∧ fs (os_MkdirAll path perm out st).2 !! q = Some (Dir perm)).
Proof.
  unfold os_MkdirAll. unfold_M. simpl.
  destruct (bool_decide _); simpl; [by left|].
  apply mkdirChain_lookup.
Qed.

Lemma os_MkdirAll_made path perm out st :
  (os_MkdirAll path perm out st).1 = None →
  fs (os_MkdirAll path perm out st).2
  = foldl (mkdirOne perm) (fs st) (filepath.upTo path)
  ∧ existsb (isFile (fs st)) (filepath.upTo path) = false.
Proof.
  unfold os_MkdirAll. unfold_M. simpl.
  destruct (bool_decide _); simpl; [done|].
  apply mkdirChain_made.
Qed.

Lemma os_OpenFile_log path flag perm out st :
  log (os_OpenFile path flag perm out st).2
  = log st ++ [EvOpenFile path flag perm].
Proof.
  unfold os_OpenFile. unfold_M. simpl.
  destruct (open_err out path); [done|].
  destruct (existsb _ _); [done|].
  destruct (fs st !! path) as [[?|? ?]|]; try done.
  by destruct (parentExists _ _).
Qed.

Lemma os_OpenFile_failed path flag perm out st e :
  (os_OpenFile path flag perm out st).1 = inr e →
  fs (os_OpenFile path flag perm out st).2 = fs st.
Proof.
  unfold os_OpenFile. unfold_M. simpl.
  destruct (open_err out path); [done|].
  destruct (existsb _ _); [done|].
  destruct (fs st !! path) as [[?|? ?]|]; try done.
  by destruct (parentExists _ _).
Qed.

(** An opened target is a regular file: the one that was there, or a new
    empty one with the mode asked for. *)
Lemma os_OpenFile_opened path flag perm out st target :
  (os_OpenFile path flag perm out st).1 = inl target →
  (∃ m data, fs st !! path = Some (File m data)
             ∧ fs (os_OpenFile path flag perm out st).2 = fs st)
  ∨ (fs st !! path = None
     ∧ fs (os_OpenFile path flag perm out st).2
       = <[path := File perm ""]> (fs st)).
Proof.
  unfold os_OpenFile. unfold_M. simpl.
  destruct (open_err out path); [done|].
  destruct (existsb _ _); [done|].
  destruct (fs st !! path) as [[?|m data]|]; try done.
  - intros _. left. by exists m, data.
  - destruct (parentExists _ _); [|done]. intros _. by right.
Qed.

Lemma io_Copy_state dest resp out st :
  (Body resp = ""%string ∧ (io_Copy dest resp out st).2 = st)
  ∨ (Body resp ≠ ""%string
     ∧ log (io_Copy dest resp out st).2 = log st ++ [EvCopy dest (Body resp)]
     ∧ ∃ data, fs (io_Copy dest resp out st).2
                 = alter (writeNode data) dest (fs st)).
Proof.
  unfold io_Copy. destruct (bool_decide (Body resp = ""%string)) eqn:Hb.
  - apply bool_decide_eq_true in Hb. by left.
  - apply bool_decide_eq_false in Hb. right. split; [done|].
    unfold_M. simpl. destruct (write_err out dest); simpl.
    + split; [done|]. by eexists.
    + split; [done|]. by eexists.
Qed.

Lemma logged_app st st' evs :
  log st' = log st ++ evs → logged st st' = evs.
Proof. intros H. unfold logged. rewrite H. apply drop_app_length. Qed.

Lemma substring_all (s : string) : String.substring 0 (String.length s) s = s.
Proof. induction s as [|c s IH]; simpl; [done|]. by rewrite IH. Qed.

Lemma substring_past (n : nat) : String.substring n 0 "" = ""%string.
Proof. by destruct n. Qed.

Lemma overwrite_nothing old : overwrite old "" = old.
Proof.
  unfold overwrite. simpl. rewrite Nat.sub_0_r.
  by rewrite substring_all.
Qed.

Lemma overwrite_empty data : overwrite "" data = data.
Proof.
  unfold overwrite. simpl. destruct (String.length data); apply string_app_nil_r.
Qed.

(** ** download *)

(** The four ways through [download]. *)
Lemma download_cases p from dest out st :
  (∃ e, newRequest_err out from = Some e
        ∧ download p from dest out st
          = (Some (Errorf_ww (New ErrDownload) e),
             withLog st [EvNewRequest from]))
  ∨ (newRequest_err out from = None
     ∧ ∃ e, roundTrip out (client p) from = inr e
            ∧ download p from dest out st
              = (Some (Errorf_ww (New ErrDownload) e),
                 withLog st [EvNewRequest from; EvDo (client p) from]))
  ∨ (newRequest_err out from = None
     ∧ ∃ resp, roundTrip out (client p) from = inl resp
               ∧ StatusCode resp ≠ http_StatusOK
               ∧ download p from dest out st
                 = (Some (Errorf_ws (New ErrDownload) from),
                    withLog st [EvNewRequest from; EvDo (client p) from]))
  ∨ (newRequest_err out from = None
     ∧ ∃ resp, roundTrip out (client p) from = inl resp
               ∧ StatusCode resp = http_StatusOK
               ∧ download p from dest out st
                 = ((io_Copy dest resp out
                       (withLog st [EvNewRequest from; EvDo (client p) from])).1,
                    withLog (io_Copy dest resp out
                               (withLog st [EvNewRequest from;
                                            EvDo (client p) from])).2
                            [EvBodyClose from])).
Proof.
  unfold download, http_NewRequest, Client_Do, withLog. unfold_M. simpl.
  destruct (newRequest_err out from) as [e|].
  { left. by exists e. }
  right. destruct (roundTrip out (client p) from) as [resp|e]; simpl.
  2:{ left. split; [done|]. exists e. by rewrite <- app_assoc. }
  right. destruct (bool_decide (StatusCode resp ≠ http_StatusOK)) eqn:Hs; simpl.
  - apply bool_decide_eq_true in Hs. left. split; [done|]. exists resp.
    by rewrite <- app_assoc.
  - apply bool_decide_eq_false in Hs. right. split; [done|]. exists resp.
    split; [done|]. split; [by destruct (decide (StatusCode resp = http_StatusOK))|].
    rewrite <- app_assoc. simpl.
    by destruct (io_Copy dest resp out _).
Qed.

Lemma download_log p from dest out st :
  ∃ devs, log (download p from dest out st).2 = log st ++ devs
    ∧ (devs = [EvNewRequest from]
       ∨ devs = [EvNewRequest from; EvDo (client p) from]
       ∨ devs = [EvNewRequest from; EvDo (client p) from; EvBodyClose from]
       ∨ ∃ data, devs = [EvNewRequest from; EvDo (client p) from;
                         EvCopy dest data; EvBodyClose from]).
Proof.
  destruct (download_cases p from dest out st)
    as [(e & _ & ->)|[(_ & e & _ & ->)|[(_ & resp & _ & _ & ->)
       |(_ & resp & _ & _ & ->)]]]; simpl.
  - eexists. split; [done|]. by left.
  - eexists. split; [done|]. right. by left.
  - eexists. split; [done|]. right. by left.
  - destruct (io_Copy_state dest resp out
                (withLog st [EvNewRequest from; EvDo (client p) from]))
      as [[_ ->]|(_ & -> & _)]; simpl.
    + eexists. split; [by rewrite <- app_assoc|]. right. right. by left.
    + eexists. split; [by rewrite <- !app_assoc|]. right. right. right.
      by eexists.
Qed.

Lemma download_fs p from dest out st :
  fs (download p from dest out st).2 = fs st
  ∨ ∃ data, fs (download p from dest out st).2
            = alter (writeNode data) dest (fs st).
Proof.
  destruct (download_cases p from dest out st)
    as [(e & _ & ->)|[(_ & e & _ & ->)|[(_ & resp & _ & _ & ->)
       |(_ & resp & Hrt & Hok & ->)]]]; simpl; try by left.
  destruct (io_Copy_state dest resp out
              (withLog st [EvNewRequest from; EvDo (client p) from]))
    as [[_ ->]|(Hbody & _ & data & ->)]; simpl; try by left.
  right. by exists data.
Qed.

(** X1: [download] leaves every path other than its destination as it
    was; it creates and removes nothing. *)
Theorem download_frame (p : provider) (from dest : string) (out : Outside)
    (st : State) (q : string) :
  q ≠ dest →
  fs (download p from dest out st).2 !! q = fs st !! q.
Proof.
  intros Hq. destruct (download_fs p from dest out st)
    as [->|(data & ->)]; [done|].
  by rewrite lookup_alter_ne.
Qed.

Lemma download_frame_witness :
  fs (download Scenario.prov "https://svc/abc123/k6" "/cache/abc123/k6"
        (Scenario.calm (inl (Scenario.response 200 "ELF" None)))
        Scenario.cached).2 !! "/cache/abc123"%string
  = Some (Dir 448).
Proof.
  rewrite (download_frame Scenario.prov "https://svc/abc123/k6"
             "/cache/abc123/k6"
             (Scenario.calm (inl (Scenario.response 200 "ELF" None)))
             Scenario.cached "/cache/abc123").
  - reflexivity.
  - discriminate.
Defined.

(** X2: when [download] returns no error, the response had status 200 and
    a body that ended without error, the destination file holds the body
    written from offset 0 over what it held (its mode is unchanged), and
    the body was closed last. *)
Theorem download_success (p : provider) (from dest : string) (out : Outside)
    (st : State) (m : Z) (old : string) :
  (download p from dest out st).1 = None →
  fs st !! dest = Some (File m old) →
  ∃ resp, roundTrip out (client p) from = inl resp
          ∧ StatusCode resp = http_StatusOK
          ∧ BodyErr resp = None
          ∧ fs (download p from dest out st).2 !! dest
            = Some (File m (overwrite old (Body resp)))
          ∧ last (log (download p from dest out st).2)
            = Some (EvBodyClose from).
Proof.
  intros Hok Hdest.
  destruct (download_cases p from dest out st)
    as [(e & _ & Hd)|[(_ & e & _ & Hd)|[(_ & resp & _ & _ & Hd)
       |(_ & resp & Hrt & Hst & Hd)]]]; rewrite Hd in Hok |- *; try done.
  simpl in Hok |- *. exists resp. split; [done|]. split; [done|].
  rewrite last_snoc. revert Hok. unfold io_Copy.
  destruct (bool_decide (Body resp = ""%string)) eqn:Hb.
  - apply bool_decide_eq_true in Hb. simpl. intros ->.
    rewrite Hb, overwrite_nothing. by rewrite Hdest.
  - unfold_M. simpl. destruct (write_err out dest); simpl; [done|].
    intros ->. rewrite lookup_alter_eq, Hdest. done.
Qed.

Lemma download_success_witness :
  fs (download Scenario.prov "https://svc/abc123/k6" "/cache/abc123/k6"
        (Scenario.calm (inl (Scenario.response 200 "NEW" None)))
        Scenario.cached).2 !! "/cache/abc123/k6"%string
  = Some (File 448 "NEW").
Proof.
  destruct (download_success Scenario.prov "https://svc/abc123/k6"
              "/cache/abc123/k6"
              (Scenario.calm (inl (Scenario.response 200 "NEW" None)))
              Scenario.cached 448 "ELF")
    as (resp & Hrt & _ & _ & Hfs & _).
  - reflexivity.
  - reflexivity.
  - rewrite Hfs. injection Hrt as <-. reflexivity.
Defined.

(** X3: for a request that could be built and got a response, [download]
    closes the response body exactly when the status is 200, and writes to
    the destination only then; a response with another status is left
    unclosed and nothing of it is written. *)
Theorem download_body_closed (p : provider) (from dest : string)
    (out : Outside) (st : State) (resp : Response) :
  newRequest_err out from = None →
  roundTrip out (client p) from = inl resp →
  (EvBodyClose from ∈ logged st (download p from dest out st).2
   ↔ StatusCode resp = http_StatusOK)
  ∧ (EvCopy dest (Body resp) ∈ logged st (download p from dest out st).2
     ↔ StatusCode resp = http_StatusOK ∧ Body resp ≠ ""%string)
  ∧ (StatusCode resp ≠ http_StatusOK →
     fs (download p from dest out st).2 = fs st).
Proof.
  intros Hreq Hrt.
  destruct (download_cases p from dest out st)
    as [(e & He & _)|[(_ & e & He & _)|[(_ & resp' & Hrt' & Hst & Hd)
       |(_ & resp' & Hrt' & Hst & Hd)]]]; try congruence;
    rewrite Hrt in Hrt'; injection Hrt' as <-; rewrite Hd.
  - rewrite (logged_app st _ [EvNewRequest from; EvDo (client p) from]) by done.
    split; [|split]; [| |done]; split.
    + intros H. repeat (apply elem_of_cons in H as [H|H]; [done|]).
      by apply elem_of_nil in H.
    + done.
    + intros H. repeat (apply elem_of_cons in H as [H|H]; [done|]).
      by apply elem_of_nil in H.
    + by intros [? _].
  - destruct (io_Copy_state dest resp out
                (withLog st [EvNewRequest from; EvDo (client p) from]))
      as [[Hbody Hst']|(Hbody & Hlog & _)].
    + rewrite (logged_app st _ [EvNewRequest from; EvDo (client p) from;
                                EvBodyClose from]).
      2:{ simpl. rewrite Hst'. simpl. by rewrite <- app_assoc. }
      split; [|split]; [| |done]; split; try done.
      * intros _. set_solver.
      * intros H. repeat (apply elem_of_cons in H as [H|H]; [done|]).
        by apply elem_of_nil in H.
      * by intros [_ ?].
    + rewrite (logged_app st _ [EvNewRequest from; EvDo (client p) from;
                                EvCopy dest (Body resp); EvBodyClose from]).
      2:{ simpl. rewrite Hlog. simpl. by rewrite <- !app_assoc. }
      split; [|split]; [| |done]; split; try done; intros _; set_solver.
Qed.

Lemma download_body_closed_witness :
  EvBodyClose "https://svc/abc123/k6"
  ∉ logged Scenario.cached
      (download Scenario.prov "https://svc/abc123/k6" "/cache/abc123/k6"
         (Scenario.calm (inl (Scenario.response 404 "gone" None)))
         Scenario.cached).2.
Proof.
  destruct (download_body_closed Scenario.prov "https://svc/abc123/k6"
              "/cache/abc123/k6"
              (Scenario.calm (inl (Scenario.response 404 "gone" None)))
              Scenario.cached (Scenario.response 404 "gone" None))
    as (Hclose & _ & _).
  - reflexivity.
  - reflexivity.
  - intros H. apply Hclose in H. discriminate H.
Defined.

(** ** The log and the file system along the stages *)

Section StageFacts.

Variables (p : provider) (r : GoMap.RangeOrder) (deps : k6deps.Dependencies)
          (out : Outside) (st : State) (artifact : k6build.Artifact).

Local Abbreviation dir := (artifactDirOf p artifact).
Local Abbreviation bin := (binPathOf p artifact).
Local Abbreviation stat := (statStep p r deps out st artifact).
Local Abbreviation mkdir := (mkdirStep p r deps out st artifact).
Local Abbreviation opened := (openStep p r deps out st artifact).
Local Abbreviation downloaded := (downloadStep p r deps out st artifact).
Local Abbreviation removed := (removeStep p r deps out st artifact).
Local Abbreviation closed := (closeStep p r deps out st artifact).

Lemma statStep_state :
  stat.2 = withLog st [buildEvent p r deps; EvStat bin].
Proof.
  unfold statStep. rewrite os_Stat_state. unfold afterBuild, withLog. simpl.
  by rewrite <- app_assoc.
Qed.

Lemma mkdirStep_log :
  log mkdir.2
  = log st ++ [buildEvent p r deps; EvStat bin; EvMkdirAll dir syscall.S_IRWXU].
Proof.
  unfold mkdirStep. rewrite os_MkdirAll_log, statStep_state. simpl.
  by rewrite <- app_assoc.
Qed.

Lemma openStep_log :
  log opened.2
  = log st ++ [buildEvent p r deps; EvStat bin; EvMkdirAll dir syscall.S_IRWXU;
               EvOpenFile bin openFlag openPerm].
Proof.
  unfold openStep. rewrite os_OpenFile_log, mkdirStep_log.
  by rewrite <- app_assoc.
Qed.

Lemma downloadStep_log :
  ∃ devs,
    log downloaded.2
    = log st ++ [buildEvent p r deps; EvStat bin; EvMkdirAll dir syscall.S_IRWXU;
                 EvOpenFile bin openFlag openPerm] ++ devs
    ∧ (devs = [EvNewRequest (k6build.URL artifact)]
       ∨ devs = [EvNewRequest (k6build.URL artifact);
                 EvDo (client p) (k6build.URL artifact)]
       ∨ devs = [EvNewRequest (k6build.URL artifact);
                 EvDo (client p) (k6build.URL artifact);
                 EvBodyClose (k6build.URL artifact)]
       ∨ ∃ data, devs = [EvNewRequest (k6build.URL artifact);
                         EvDo (client p) (k6build.URL artifact);
                         EvCopy bin data;
                         EvBodyClose (k6build.URL artifact)]).
Proof.
  unfold downloadStep.
  destruct (download_log p (k6build.URL artifact) bin out opened.2)
    as (devs & Hlog & Hdevs).
  exists devs. split; [|done]. rewrite Hlog, openStep_log.
  by rewrite <- app_assoc.
Qed.

Lemma removeStep_log :
  log removed.2 = log downloaded.2 ++ [EvRemoveAll dir].
Proof. unfold removeStep. apply os_RemoveAll_log. Qed.

Lemma closeStep_state : closed.2 = withLog downloaded.2 [EvClose bin].
Proof. reflexivity. Qed.

Lemma statStep_fs : fs stat.2 = fs st.
Proof. by rewrite statStep_state. Qed.

End StageFacts.

(** ** GetBinary: which calls it makes *)

Ltac close_requests :=
  apply Forall_forall; intros ev Hin Hreq;
  repeat (apply elem_of_cons in Hin as [->|Hin];
          [first [discriminate Hreq
                 | by (eexists; split; reflexivity)]|]);
  by apply elem_of_nil in Hin.

Ltac close_calls :=
  cbv [app]; simpl; split; [by repeat constructor|];
  split; [close_requests|];
  split; simpl; lia.

(** X4: whatever happens, [GetBinary] calls the build service exactly once,
    before anything else; it sends at most one HTTP request, which goes to
    the URL of the artifact through the provider's client; and it calls
    RemoveAll at most once.  Nothing is retried. *)
Theorem GetBinary_calls (p : provider) (r : GoMap.RangeOrder)
    (deps : k6deps.Dependencies) (out : Outside) (st : State) :
  ∃ rest,
    logged st (GetBinary p r deps out st).2 = buildEvent p r deps :: rest
    ∧ Forall (λ e, isBuildCall e = false) rest
    ∧ Forall (λ e, isRequest e = true →
                   ∃ artifact, buildResult p r deps = inl artifact
                               ∧ e = EvDo (client p) (k6build.URL artifact)) rest
    ∧ length (filter (λ e, isRequest e = true) rest) ≤ 1
    ∧ length (filter (λ e, isRemoval e = true) rest) ≤ 1.
Proof.
  rewrite GetBinary_stages.
  destruct (buildResult p r deps) as [artifact|err] eqn:Hb.
  2:{ exists []. split; [by apply logged_app|]. close_calls. }
  destruct (statStep p r deps out st artifact).1 as [e|].
  2:{ eexists. split; [apply logged_app; by rewrite statStep_state|].
      close_calls. }
  destruct (negb (os_IsNotExist e)).
  { eexists. split; [apply logged_app; by rewrite statStep_state|].
    close_calls. }
  destruct (mkdirStep p r deps out st artifact).1 as [e1|].
  { eexists. split; [apply logged_app; apply mkdirStep_log|]. close_calls. }
  destruct (openStep p r deps out st artifact).1 as [target|e2].
  2:{ eexists. split; [apply logged_app; apply openStep_log|]. close_calls. }
  destruct (downloadStep_log p r deps out st artifact) as (devs & Hlog & Hdevs).
  destruct (downloadStep p r deps out st artifact).1 as [e3|].
  - exists ([EvStat (binPathOf p artifact);
             EvMkdirAll (artifactDirOf p artifact) syscall.S_IRWXU;
             EvOpenFile (binPathOf p artifact) openFlag openPerm]
            ++ devs ++ [EvRemoveAll (artifactDirOf p artifact)]).
    split.
    { apply logged_app. cbn [snd]. rewrite removeStep_log, Hlog.
      by rewrite <- !app_assoc. }
    destruct Hdevs as [->|[->|[->|[data ->]]]]; close_calls.
  - exists ([EvStat (binPathOf p artifact);
             EvMkdirAll (artifactDirOf p artifact) syscall.S_IRWXU;
             EvOpenFile (binPathOf p artifact) openFlag openPerm]
            ++ devs ++ [EvClose (binPathOf p artifact)]).
    split.
    { apply logged_app. cbn [snd]. rewrite closeStep_state.
      unfold withLog. cbn [log]. rewrite Hlog.
      by rewrite <- !app_assoc. }
    destruct Hdevs as [->|[->|[->|[data ->]]]]; close_calls.
Qed.

(** ** GetBinary: what it leaves alone *)

Lemma os_MkdirAll_keeps path perm out st q n :
  fs st !! q = Some n → fs (os_MkdirAll path perm out st).2 !! q = Some n.
Proof.
  intros Hq. destruct (os_MkdirAll_lookup path perm out st q)
    as [->|(Hnone & _)]; [done|congruence].
Qed.

Lemma os_OpenFile_frame path flag perm out st q :
  q ≠ path → fs (os_OpenFile path flag perm out st).2 !! q = fs st !! q.
Proof.
  intros Hq. destruct (os_OpenFile path flag perm out st).1 as [t|e] eqn:Hr.
  - destruct (os_OpenFile_opened _ _ _ _ _ t Hr)
      as [(m & data & _ & ->)|[_ ->]]; [done|].
    by rewrite lookup_insert_ne.
  - by rewrite (os_OpenFile_failed _ _ _ _ _ e Hr).
Qed.

Lemma os_RemoveAll_frame dir out st q :
  filepath.inside dir q = false →
  fs (os_RemoveAll dir out st).2 !! q = fs st !! q.
Proof.
  intros Hq. unfold os_RemoveAll. unfold_M. simpl.
  destruct (bool_decide (dir = ""%string)); [done|].
  destruct (endsWithDot dir); [done|]. simpl.
  destruct (fs st !! q) as [n|] eqn:Hn.
  - apply map_lookup_filter_Some. split; [done|]. by left.
  - apply map_lookup_filter_None. by left.
Qed.

(** X5: an entry that lies outside the artifact directory and is not the
    binary itself is there unchanged after [GetBinary], on every path
    through it: the call removes and rewrites nothing but its own
    artifact. *)
Theorem GetBinary_frame (p : provider) (r : GoMap.RangeOrder)
    (deps : k6deps.Dependencies) (out : Outside) (st : State)
    (artifact : k6build.Artifact) (q : string) (n : Node) :
  buildResult p r deps = inl artifact →
  fs st !! q = Some n →
  filepath.inside (artifactDirOf p artifact) q = false →
  q ≠ binPathOf p artifact →
  fs (GetBinary p r deps out st).2 !! q = Some n.
Proof.
  intros Hb Hq Hout Hbin. rewrite GetBinary_stages, Hb.
  assert (Hmk : fs (mkdirStep p r deps out st artifact).2 !! q = Some n).
  { unfold mkdirStep. apply os_MkdirAll_keeps. by rewrite statStep_fs. }
  assert (Hop : fs (openStep p r deps out st artifact).2 !! q = Some n).
  { unfold openStep. by rewrite os_OpenFile_frame. }
  assert (Hdl : fs (downloadStep p r deps out st artifact).2 !! q = Some n).
  { unfold downloadStep. by rewrite download_frame. }
  destruct (statStep p r deps out st artifact).1 as [e|]; cbn [snd];
    [|by rewrite statStep_fs].
  destruct (negb (os_IsNotExist e)); cbn [snd]; [by rewrite statStep_fs|].
  destruct (mkdirStep p r deps out st artifact).1 as [e1|]; cbn [snd]; [done|].
  destruct (openStep p r deps out st artifact).1 as [target|e2]; cbn [snd];
    [|done].
  destruct (downloadStep p r deps out st artifact).1 as [e3|]; cbn [snd].
  - unfold removeStep. by rewrite os_RemoveAll_frame.
  - by rewrite closeStep_state.
Qed.

Lemma GetBinary_frame_witness :
  fs (GetBinary Scenario.prov Scenario.forward Scenario.deps
        (Scenario.calm (inl (Scenario.response 500 "" None)))
        Scenario.fresh).2 !! "/cache"%string
  = Some (Dir 448).
Proof.
  apply (GetBinary_frame Scenario.prov Scenario.forward Scenario.deps
           (Scenario.calm (inl (Scenario.response 500 "" None)))
           Scenario.fresh Scenario.artifact "/cache" (Dir 448)).
  - reflexivity.
  - reflexivity.
  - reflexivity.
  - vm_compute. discriminate.
Defined.

(** ** GetBinary: failures before the download *)

Lemma GetBinary_on_miss p r deps out st artifact :
  cacheMiss p r deps out st artifact →
  GetBinary p r deps out st
  = match (mkdirStep p r deps out st artifact).1 with
    | Some e' =>
        ((K6Binary_zero, Some (Errorf_ww (New ErrBinary) e')),
         (mkdirStep p r deps out st artifact).2)
    | None =>
        match (openStep p r deps out st artifact).1 with
        | inr e' =>
            ((K6Binary_zero, Some (Errorf_ww (New ErrBinary) e')),
             (openStep p r deps out st artifact).2)
        | inl _ =>
            match (downloadStep p r deps out st artifact).1 with
            | Some e' =>
                ((K6Binary_zero, Some e'),
                 (removeStep p r deps out st artifact).2)
            | None =>
                ((binaryOf (binPathOf p artifact) artifact, None),
                 (closeStep p r deps out st artifact).2)
            end
        end
    end.
Proof.
  intros (Hb & e & Hs & Hne). by rewrite GetBinary_stages, Hb, Hs, Hne.
Qed.

(** X6: on a cache miss, when the artifact directory cannot be made,
    [GetBinary] returns the zero binary and an error that wraps ErrBinary
    and the cause; it goes no further (no open, no request, no removal).
    Every entry of the file system is as before, except that parents made
    before the failure stay: an entry that is new is a directory of mode
    0700 on the way to the artifact directory. *)
Theorem GetBinary_mkdir_failure (p : provider) (r : GoMap.RangeOrder)
    (deps : k6deps.Dependencies) (out : Outside) (st : State)
    (artifact : k6build.Artifact) (e : error) :
  cacheMiss p r deps out st artifact →
  (mkdirStep p r deps out st artifact).1 = Some e →
  (GetBinary p r deps out st).1
  = (K6Binary_zero, Some (Errorf_ww (New ErrBinary) e))
  ∧ errors_Is (Errorf_ww (New ErrBinary) e) ErrBinary = true
  ∧ (∀ q, fs (GetBinary p r deps out st).2 !! q = fs st !! q
          ∨ (fs st !! q = None
             ∧ q ∈ filepath.upTo (artifactDirOf p artifact)
             ∧ fs (GetBinary p r deps out st).2 !! q
               = Some (Dir syscall.S_IRWXU)))
  ∧ logged st (GetBinary p r deps out st).2
    = [buildEvent p r deps; EvStat (binPathOf p artifact);
       EvMkdirAll (artifactDirOf p artifact) syscall.S_IRWXU].
Proof.
  intros Hmiss Hmk. rewrite (GetBinary_on_miss _ _ _ _ _ _ Hmiss), Hmk.
  cbn [fst snd]. split; [done|]. split; [done|]. split.
  - intros q. unfold mkdirStep. rewrite <- (statStep_fs p r deps out st artifact).
    apply os_MkdirAll_lookup.
  - apply logged_app, mkdirStep_log.
Qed.

Lemma GetBinary_mkdir_failure_witness :
  (GetBinary Scenario.prov Scenario.forward Scenario.deps
     Cases.mkdirDenied Cases.bare).1
  = (K6Binary_zero,
     Some (Errorf_ww (New ErrBinary)
             (PathError "mkdir" "/cache/abc123" syscall.EACCES)))
  ∧ fs Cases.bare !! "/cache"%string = None
  ∧ fs (GetBinary Scenario.prov Scenario.forward Scenario.deps
          Cases.mkdirDenied Cases.bare).2 !! "/cache"%string
    = Some (Dir syscall.S_IRWXU)
  ∧ fs (GetBinary Scenario.prov Scenario.forward Scenario.deps
          Cases.mkdirDenied Cases.bare).2 !! "/cache/abc123"%string
    = None.
Proof.
  destruct (GetBinary_mkdir_failure Scenario.prov Scenario.forward
              Scenario.deps Cases.mkdirDenied Cases.bare Scenario.artifact
              (PathError "mkdir" "/cache/abc123" syscall.EACCES))
    as (Hres & _ & Hfs & _).
  - split; [reflexivity|].
    exists (PathError "stat" "/cache/abc123/k6" syscall.ENOENT).
    split; reflexivity.
  - reflexivity.
  - split; [exact Hres|]. split; [reflexivity|]. split.
    + destruct (Hfs "/cache"%string) as [Hsame|(_ & _ & Hnew)];
        [reflexivity|exact Hnew].
    + destruct (Hfs "/cache/abc123"%string) as [Hsame|(_ & _ & Hnew)];
        [exact Hsame|reflexivity].
Defined.

(** X7: on a cache miss, when the directory is made but the binary cannot
    be opened, [GetBinary] returns the zero binary and an error that wraps
    ErrBinary and the cause; it sends no request and, unlike after a
    failed download, removes nothing: the directories it made are still
    there. *)
Theorem GetBinary_open_failure (p : provider) (r : GoMap.RangeOrder)
    (deps : k6deps.Dependencies) (out : Outside) (st : State)
    (artifact : k6build.Artifact) (e : error) :
  cacheMiss p r deps out st artifact →
  (mkdirStep p r deps out st artifact).1 = None →
  (openStep p r deps out st artifact).1 = inr e →
  (GetBinary p r deps out st).1
  = (K6Binary_zero, Some (Errorf_ww (New ErrBinary) e))
  ∧ errors_Is (Errorf_ww (New ErrBinary) e) ErrBinary = true
  ∧ logged st (GetBinary p r deps out st).2
    = [buildEvent p r deps; EvStat (binPathOf p artifact);
       EvMkdirAll (artifactDirOf p artifact) syscall.S_IRWXU;
       EvOpenFile (binPathOf p artifact) openFlag openPerm]
  ∧ Forall (λ q, is_Some (fs (GetBinary p r deps out st).2 !! q))
           (filepath.upTo (artifactDirOf p artifact)).
Proof.
  intros Hmiss Hmk Hop.
  rewrite (GetBinary_on_miss _ _ _ _ _ _ Hmiss), Hmk, Hop.
  cbn [fst snd]. split; [done|]. split; [done|]. split.
  - apply logged_app, openStep_log.
  - unfold openStep in *. rewrite (os_OpenFile_failed _ _ _ _ _ e Hop).
    unfold mkdirStep in *. destruct (os_MkdirAll_made _ _ _ _ Hmk) as [-> _].
    apply Forall_forall. intros q Hq. rewrite foldl_mkdirOne_lookup.
    destruct (fs _ !! q); [by eexists|]. rewrite decide_True by done.
    by eexists.
Qed.

Lemma GetBinary_open_failure_witness :
  (GetBinary Scenario.prov Scenario.forward Scenario.deps
     Cases.openDenied Scenario.fresh).1
  = (K6Binary_zero,
     Some (Errorf_ww (New ErrBinary)
             (PathError "open" "/cache/abc123/k6" syscall.EACCES)))
  ∧ Forall (λ q, is_Some (fs (GetBinary Scenario.prov Scenario.forward
                                Scenario.deps Cases.openDenied
                                Scenario.fresh).2 !! q))
           (filepath.upTo (artifactDirOf Scenario.prov Scenario.artifact)).
Proof.
  destruct (GetBinary_open_failure Scenario.prov Scenario.forward
              Scenario.deps Cases.openDenied Scenario.fresh Scenario.artifact
              (PathError "open" "/cache/abc123/k6" syscall.EACCES))
    as (Hres & _ & _ & Hdirs).
  - split; [reflexivity|].
    exists (PathError "stat" "/cache/abc123/k6" syscall.ENOENT).
    split; reflexivity.
  - reflexivity.
  - reflexivity.
  - split; [exact Hres | exact Hdirs].
Defined.

(** ** GetBinary: the errors it returns *)

Lemma io_Copy_error dest resp out st e :
  (io_Copy dest resp out st).1 = Some e →
  BodyErr resp = Some e
  ∨ ∃ errno, write_err out dest = Some errno
             ∧ e = PathError "write" dest errno.
Proof.
  unfold io_Copy. destruct (bool_decide (Body resp = ""%string)).
  - simpl. by left.
  - unfold_M. simpl. destruct (write_err out dest) as [errno|]; simpl.
    + intros [= <-]. right. by exists errno.
    + by left.
Qed.

(** A refused write ends the copy with the bytes written before it in the
    file. *)
Lemma io_Copy_refused dest resp out st errno :
  Body resp ≠ ""%string →
  write_err out dest = Some errno →
  (io_Copy dest resp out st).1 = Some (PathError "write" dest errno)
  ∧ fs (io_Copy dest resp out st).2
    = alter (writeNode (String.substring 0 (write_done out dest) (Body resp)))
            dest (fs st).
Proof.
  intros Hb Hw. unfold io_Copy. rewrite bool_decide_eq_false_2 by done.
  unfold_M. simpl. by rewrite Hw.
Qed.

Lemma download_error p from dest out st e :
  (download p from dest out st).1 = Some e →
  errors_Is e ErrDownload = true
  ∨ ∃ resp, roundTrip out (client p) from = inl resp
            ∧ StatusCode resp = http_StatusOK
            ∧ (BodyErr resp = Some e
               ∨ ∃ errno, write_err out dest = Some errno
                          ∧ e = PathError "write" dest errno).
Proof.
  destruct (download_cases p from dest out st)
    as [(e' & _ & ->)|[(_ & e' & _ & ->)|[(_ & resp & _ & _ & ->)
       |(_ & resp & Hrt & Hst & ->)]]]; simpl.
  - intros [= <-]. by left.
  - intros [= <-]. by left.
  - intros [= <-]. by left.
  - intros Hc%io_Copy_error. right. by exists resp.
Qed.

(** X8: an error returned by [GetBinary] wraps ErrBuild, ErrBinary or
    ErrDownload, with one exception: an error met while copying a 200
    response to the file (the error that ends the body, or the write
    error) is returned as it is, without a class. *)
Theorem GetBinary_error_class (p : provider) (r : GoMap.RangeOrder)
    (deps : k6deps.Dependencies) (out : Outside) (st : State) (e : error) :
  (GetBinary p r deps out st).1.2 = Some e →
  errors_Is e ErrBuild = true
  ∨ errors_Is e ErrBinary = true
  ∨ errors_Is e ErrDownload = true
  ∨ ∃ artifact resp,
      buildResult p r deps = inl artifact
      ∧ roundTrip out (client p) (k6build.URL artifact) = inl resp
      ∧ StatusCode resp = http_StatusOK
      ∧ (BodyErr resp = Some e
         ∨ ∃ errno, write_err out (binPathOf p artifact) = Some errno
                    ∧ e = PathError "write" (binPathOf p artifact) errno).
Proof.
  rewrite GetBinary_stages.
  destruct (buildResult p r deps) as [artifact|err] eqn:Hb.
  2:{ intros [= <-]. by left. }
  destruct (statStep p r deps out st artifact).1 as [e0|]; [|done].
  destruct (negb (os_IsNotExist e0)).
  { intros [= <-]. right. by left. }
  destruct (mkdirStep p r deps out st artifact).1 as [e1|].
  { intros [= <-]. right. by left. }
  destruct (openStep p r deps out st artifact).1 as [target|e2].
  2:{ intros [= <-]. right. by left. }
  destruct (downloadStep p r deps out st artifact).1 as [e3|] eqn:Hd; [|done].
  intros [= <-]. unfold downloadStep in Hd.
  apply download_error in Hd as [Hd|(resp & Hrt & Hst & Hd)].
  - right. right. by left.
  - right. right. right. by exists artifact, resp.
Qed.

Lemma GetBinary_error_class_witness :
  errors_Is (Errorf_ws (New ErrDownload) "https://svc/abc123/k6") ErrDownload
  = true.
Proof.
  destruct (GetBinary_error_class Scenario.prov Scenario.forward Scenario.deps
              (Scenario.calm (inl (Scenario.response 500 "" None)))
              Scenario.fresh
              (Errorf_ws (New ErrDownload) "https://svc/abc123/k6"))
    as [H|[H|[H|H]]].
  - reflexivity.
  - discriminate H.
  - discriminate H.
  - exact H.
  - reflexivity.
Defined.

(** ** GetBinary: what a success delivers *)

Lemma os_Stat_found path out st :
  (os_Stat path out st).1 = None → is_Some (fs st !! path).
Proof.
  unfold os_Stat. unfold_M. simpl. destruct (stat_err out path); [done|].
  destruct (existsb _ _); [done|]. by destruct (fs st !! path).
Qed.

Lemma Clean_nonempty x : filepath.Clean x ≠ ""%string.
Proof.
  destruct (Clean_shape x) as (out & -> & Hout).
  pose proof (cleanStack_elems _ _ Hout) as Hes.
  unfold filepath.render. destruct (filepath.isRooted x); [done|].
  destruct (reverse out) as [|e es]; [done|].
  apply Forall_cons in Hes as [[Hne _] _]. by apply concat_nonempty.
Qed.

Lemma binPath_nonempty p artifact : binPathOf p artifact ≠ ""%string.
Proof.
  unfold binPathOf. rewrite Join_cons.
  destruct (bool_decide _); [|apply Clean_nonempty].
  rewrite Join_cons. rewrite bool_decide_eq_false_2 by done.
  apply Clean_nonempty.
Qed.

Lemma openStep_file p r deps out st artifact target :
  (openStep p r deps out st artifact).1 = inl target →
  ∃ m data, fs (openStep p r deps out st artifact).2 !! binPathOf p artifact
            = Some (File m data).
Proof.
  unfold openStep. intros Hop.
  destruct (os_OpenFile_opened _ _ _ _ _ _ Hop)
    as [(m & data & Hf & ->)|[_ ->]].
  - by exists m, data.
  - rewrite lookup_insert_eq. by eexists _, _.
Qed.

Lemma download_keeps_file p from dest out st m data :
  fs st !! dest = Some (File m data) →
  ∃ data', fs (download p from dest out st).2 !! dest = Some (File m data').
Proof.
  intros Hd. destruct (download_fs p from dest out st)
    as [->|(data' & ->)]; [by exists data|].
  rewrite lookup_alter_eq, Hd. by eexists.
Qed.

(** X9: whenever [GetBinary] returns no error, the build service returned
    an artifact, the result carries that artifact's dependencies and
    checksum unchanged, and its path is the non-empty cache path of the
    artifact, at which an entry exists in the file system when the call
    returns. *)
Theorem GetBinary_success (p : provider) (r : GoMap.RangeOrder)
    (deps : k6deps.Dependencies) (out : Outside) (st : State) :
  (GetBinary p r deps out st).1.2 = None →
  ∃ artifact,
    buildResult p r deps = inl artifact
    ∧ (GetBinary p r deps out st).1.1
      = {| Path := binPathOf p artifact;
           Dependencies := k6build.Dependencies artifact;
           Checksum := k6build.Checksum artifact |}
    ∧ Path (GetBinary p r deps out st).1.1 ≠ ""%string
    ∧ is_Some (fs (GetBinary p r deps out st).2 !! binPathOf p artifact).
Proof.
  rewrite GetBinary_stages.
  destruct (buildResult p r deps) as [artifact|err] eqn:Hb; [|done].
  intros Hok. exists artifact. split; [done|]. revert Hok.
  destruct (statStep p r deps out st artifact).1 as [e|] eqn:Hs.
  2:{ intros _. cbn [fst snd]. split; [done|]. split; [apply binPath_nonempty|].
      rewrite statStep_fs. unfold statStep in Hs.
      apply os_Stat_found in Hs. exact Hs. }
  destruct (negb (os_IsNotExist e)); [done|].
  destruct (mkdirStep p r deps out st artifact).1 as [e1|]; [done|].
  destruct (openStep p r deps out st artifact).1 as [target|e2] eqn:Hop; [|done].
  destruct (downloadStep p r deps out st artifact).1 as [e3|]; [done|].
  intros _. cbn [fst snd]. split; [done|]. split; [apply binPath_nonempty|].
  rewrite closeStep_state. cbn [fs withLog].
  destruct (openStep_file _ _ _ _ _ _ _ Hop) as (m & data & Hf).
  unfold downloadStep.
  destruct (download_keeps_file p (k6build.URL artifact) _ out _ m data Hf)
    as [data' ->].
  by eexists.
Qed.

Lemma GetBinary_success_witness :
  ∃ artifact,
    (GetBinary Scenario.prov Scenario.forward Scenario.deps
       (Scenario.calm (inl (Scenario.response 200 "ELF" None)))
       Scenario.fresh).1.1
    = {| Path := binPathOf Scenario.prov artifact;
         Dependencies := k6build.Dependencies artifact;
         Checksum := k6build.Checksum artifact |}.
Proof.
  destruct (GetBinary_success Scenario.prov Scenario.forward Scenario.deps
              (Scenario.calm (inl (Scenario.response 200 "ELF" None)))
              Scenario.fresh)
    as (artifact & _ & Hres & _).
  - reflexivity.
  - by exists artifact.
Defined.

(** ** The artifact directory and the binary's path *)

Lemma isRooted_render_nil rooted es :
  Forall (λ e, e ≠ ""%string ∧ "/"%char ∉ list_ascii_of_string e) es →
  filepath.isRooted (filepath.render rooted es) = rooted.
Proof.
  intros Hes. rewrite <- (string_app_nil_r (filepath.render rooted es)).
  by apply isRooted_render.
Qed.

Lemma upTo_render rooted out :
  cleanStack rooted out →
  filepath.upTo (filepath.render rooted (reverse out))
  = (λ n, filepath.render rooted (take n (reverse out))) <$> seq 1 (length out).
Proof.
  intros Hout. pose proof (cleanStack_elems rooted out Hout) as Hes.
  unfold filepath.upTo. rewrite isRooted_render_nil by done.
  pose proof (cleanElems_render rooted (reverse out) [] Hes) as Hr.
  rewrite !app_nil_r in Hr. rewrite Hr.
  pose proof (cleanElems_fixed rooted out [] Hout) as Hf.
  rewrite app_nil_r in Hf. rewrite Hf. simpl.
  by rewrite length_reverse.
Qed.

Lemma cleanStack_push rooted out :
  cleanStack rooted out → cleanStack rooted (k6Binary :: out).
Proof.
  intros (reals & n & -> & Hreals & Hn).
  exists (k6Binary :: reals), n. repeat split; [|done].
  constructor; [apply plainElem_k6|done].
Qed.

(** The shape of the two paths [GetBinary] works with. *)
Lemma paths_shape p artifact :
  artifactDirOf p artifact ≠ ""%string →
  ∃ rooted out,
    cleanStack rooted out
    ∧ artifactDirOf p artifact = filepath.render rooted (reverse out)
    ∧ binPathOf p artifact = filepath.render rooted (reverse (k6Binary :: out)).
Proof.
  unfold binPathOf. intros Hne.
  destruct (Join_shape [bidDir p; k6build.ID artifact]) as [Hempty|[x Hx]];
    [done|].
  fold (artifactDirOf p artifact) in Hx. revert Hne.
  generalize dependent (artifactDirOf p artifact). intros d -> Hne.
  destruct (Clean_shape x) as (out & Hshape & Hout).
  exists (filepath.isRooted x), out. split; [done|]. split; [done|].
  rewrite Join_cons, bool_decide_eq_false_2 by done.
  change (String.concat "/" [filepath.Clean x; k6Binary])
    with (filepath.Clean x +:+ "/" +:+ k6Binary).
  rewrite Hshape, Clean_render_k6 by done. by rewrite reverse_cons.
Qed.

(** The directories above the binary are the artifact directory and the
    directories above it. *)
Lemma ancestors_binPath p artifact :
  artifactDirOf p artifact ≠ ""%string →
  filepath.ancestors (binPathOf p artifact)
  = filepath.upTo (artifactDirOf p artifact).
Proof.
  intros Hne. destruct (paths_shape p artifact Hne)
    as (rooted & out & Hout & -> & ->).
  unfold filepath.ancestors.
  rewrite (upTo_render rooted (k6Binary :: out)) by by apply cleanStack_push.
  rewrite upTo_render by done. simpl length.
  rewrite seq_S, fmap_app. simpl. rewrite removelast_last.
  apply list_fmap_ext. intros i n Hn. apply lookup_seq in Hn as [-> Hi].
  rewrite reverse_cons. rewrite take_app_le; [done|].
  rewrite length_reverse. lia.
Qed.

Lemma string_length_app (a b : string) :
  String.length (a +:+ b) = String.length a + String.length b.
Proof.
  induction a as [|c a IH]; [done|].
  rewrite string_app_cons. simpl. by rewrite IH.
Qed.

Lemma concat_grows (l l2 : list string) :
  String.length (String.concat "/" l)
  < String.length (String.concat "/" (l ++ l2 ++ [k6Binary])).
Proof.
  induction l as [|e l IH].
  - simpl. induction l2 as [|e l2 IH2]; [simpl; lia|].
    rewrite <- app_comm_cons. destruct (l2 ++ [k6Binary]) as [|x xs] eqn:Hx.
    { by destruct l2. }
    rewrite concat_cons2, !string_length_app. lia.
  - rewrite <- app_comm_cons.
    destruct (l ++ l2 ++ [k6Binary]) as [|x xs] eqn:Hx.
    { destruct l; [by destruct l2|done]. }
    rewrite concat_cons2, !string_length_app.
    destruct l as [|e' l]; [simpl; lia|].
    rewrite concat_cons2, !string_length_app. lia.
Qed.

(** The binary's path is none of the directories [MkdirAll] makes. *)
Lemma binPath_not_upTo p artifact :
  artifactDirOf p artifact ≠ ""%string →
  binPathOf p artifact ∉ filepath.upTo (artifactDirOf p artifact).
Proof.
  intros Hne. destruct (paths_shape p artifact Hne)
    as (rooted & out & Hout & -> & ->).
  rewrite upTo_render by done. intros Hin.
  apply list_elem_of_fmap in Hin as (n & Heq & Hn).
  apply elem_of_seq in Hn as [Hn1 Hn2].
  rewrite reverse_cons in Heq.
  rewrite <- (take_drop n (reverse out)) in Heq at 1.
  rewrite <- app_assoc in Heq.
  pose proof (concat_grows (take n (reverse out)) (drop n (reverse out))) as Hlt.
  assert (Hlen : String.length (filepath.render rooted
                   (take n (reverse out) ++ drop n (reverse out) ++ [k6Binary]))
                 = String.length (filepath.render rooted (take n (reverse out))))
    by by rewrite Heq.
  unfold filepath.render in Hlen. destruct rooted.
  - rewrite !string_length_app in Hlen. lia.
  - destruct (take n (reverse out)) as [|e es] eqn:Ht.
    + apply (f_equal length) in Ht. rewrite length_take, length_reverse in Ht.
      simpl in Ht. lia.
    + rewrite <- app_comm_cons in Hlt. simpl app in Hlen. cbv iota in Hlen. lia.
Qed.

(** ** GetBinary: a download that succeeds *)

Lemma download_ok p from dest out st :
  (download p from dest out st).1 = None →
  ∃ resp,
    roundTrip out (client p) from = inl resp
    ∧ StatusCode resp = http_StatusOK
    ∧ BodyErr resp = None
    ∧ log (download p from dest out st).2
      = log st ++ [EvNewRequest from; EvDo (client p) from]
               ++ (if bool_decide (Body resp = ""%string) then []
                   else [EvCopy dest (Body resp)])
               ++ [EvBodyClose from]
    ∧ fs (download p from dest out st).2
      = if bool_decide (Body resp = ""%string) then fs st
        else alter (writeNode (Body resp)) dest (fs st).
Proof.
  destruct (download_cases p from dest out st)
    as [(e & _ & ->)|[(_ & e & _ & ->)|[(_ & resp & _ & _ & ->)
       |(_ & resp & Hrt & Hst & ->)]]]; try done.
  cbn [fst snd]. intros Hok. exists resp. split; [done|]. split; [done|].
  revert Hok. unfold io_Copy, withLog.
  destruct (bool_decide (Body resp = ""%string)).
  - simpl. intros ->. split; [done|]. split; [by rewrite <- !app_assoc|done].
  - unfold_M. simpl. destruct (write_err out dest); simpl; [done|].
    intros ->. split; [done|]. split; [by rewrite <- !app_assoc|done].
Qed.

Lemma reachesDownload_miss p r deps out st artifact :
  reachesDownload p r deps out st artifact →
  cacheMiss p r deps out st artifact
  ∧ (mkdirStep p r deps out st artifact).1 = None
  ∧ (openStep p r deps out st artifact).1 = inl (binPathOf p artifact)
  ∧ artifactDirOf p artifact ≠ ""%string.
Proof.
  intros (Hb & Hs & Hmk & Hop). repeat split; try done.
  by apply (os_MkdirAll_nonempty _ syscall.S_IRWXU out
              (statStep p r deps out st artifact).2).
Qed.

(** After the directory is made, an absent binary is still absent. *)
Lemma mkdirStep_binPath p r deps out st artifact :
  (mkdirStep p r deps out st artifact).1 = None →
  fs st !! binPathOf p artifact = None →
  fs (mkdirStep p r deps out st artifact).2 !! binPathOf p artifact = None.
Proof.
  intros Hmk Habs. pose proof Hmk as Hne. unfold mkdirStep in *.
  apply os_MkdirAll_nonempty in Hne.
  destruct (os_MkdirAll_made _ _ _ _ Hmk) as [-> _].
  rewrite foldl_mkdirOne_lookup, statStep_fs, Habs.
  rewrite decide_False; [done|]. by apply binPath_not_upTo.
Qed.

(** X10: on a cache miss, when the directory is made, the binary opened and
    the download returns no error, [GetBinary] returns the binary's path
    with the artifact's data; the calls it made are, in this order, build,
    stat, mkdir, open, one request, the copy of the body into the file
    (however many writes [io.Copy] needs for it; none for an empty body),
    close of the body, close of the file; and a binary that was not there
    before is a file of mode 0700 holding exactly the response body. *)
Theorem GetBinary_installs (p : provider) (r : GoMap.RangeOrder)
    (deps : k6deps.Dependencies) (out : Outside) (st : State)
    (artifact : k6build.Artifact) :
  reachesDownload p r deps out st artifact →
  (downloadStep p r deps out st artifact).1 = None →
  ∃ resp,
    roundTrip out (client p) (k6build.URL artifact) = inl resp
    ∧ StatusCode resp = http_StatusOK
    ∧ BodyErr resp = None
    ∧ (GetBinary p r deps out st).1
      = (binaryOf (binPathOf p artifact) artifact, None)
    ∧ logged st (GetBinary p r deps out st).2
      = [buildEvent p r deps; EvStat (binPathOf p artifact);
         EvMkdirAll (artifactDirOf p artifact) syscall.S_IRWXU;
         EvOpenFile (binPathOf p artifact) openFlag openPerm;
         EvNewRequest (k6build.URL artifact);
         EvDo (client p) (k6build.URL artifact)]
        ++ (if bool_decide (Body resp = ""%string) then []
            else [EvCopy (binPathOf p artifact) (Body resp)])
        ++ [EvBodyClose (k6build.URL artifact); EvClose (binPathOf p artifact)]
    ∧ (fs st !! binPathOf p artifact = None →
       fs (GetBinary p r deps out st).2 !! binPathOf p artifact
       = Some (File syscall.S_IRWXU (Body resp))).
Proof.
  intros Hreach Hdl.
  destruct (reachesDownload_miss _ _ _ _ _ _ Hreach) as (Hmiss & Hmk & Hop & Hne).
  rewrite (GetBinary_on_miss _ _ _ _ _ _ Hmiss), Hmk, Hop, Hdl. cbn [fst snd].
  unfold downloadStep in Hdl.
  destruct (download_ok _ _ _ _ _ Hdl) as (resp & Hrt & Hst & Hbe & Hlog & Hfs).
  exists resp. split; [done|]. split; [done|]. split; [done|]. split; [done|].
  split.
  - apply logged_app. rewrite closeStep_state. unfold withLog. cbn [log].
    unfold downloadStep. rewrite Hlog, openStep_log.
    by rewrite <- !app_assoc.
  - intros Habs. rewrite closeStep_state. cbn [fs withLog].
    unfold downloadStep. rewrite Hfs.
    assert (Hfile : fs (openStep p r deps out st artifact).2
                      !! binPathOf p artifact
                    = Some (File syscall.S_IRWXU "")).
    { pose proof (mkdirStep_binPath _ _ _ _ _ _ Hmk Habs) as Hmkabs.
      unfold openStep in *.
      destruct (os_OpenFile_opened _ _ _ _ _ _ Hop)
        as [(m & data & Hf & _)|[_ ->]]; [congruence|].
      by rewrite lookup_insert_eq. }
    destruct (bool_decide (Body resp = ""%string)) eqn:Hb.
    + apply bool_decide_eq_true in Hb. by rewrite Hb.
    + rewrite lookup_alter_eq, Hfile. simpl. by rewrite overwrite_empty.
Qed.

Lemma GetBinary_installs_witness :
  fs (GetBinary Scenario.prov Scenario.forward Scenario.deps
        (Scenario.calm (inl (Scenario.response 200 "ELF" None)))
        Scenario.fresh).2 !! "/cache/abc123/k6"%string
  = Some (File 448 "ELF").
Proof.
  destruct (GetBinary_installs Scenario.prov Scenario.forward Scenario.deps
              (Scenario.calm (inl (Scenario.response 200 "ELF" None)))
              Scenario.fresh Scenario.artifact)
    as (resp & Hrt & _ & _ & _ & _ & Hfile).
  - split; [reflexivity|]. split; [|split; reflexivity].
    exists (PathError "stat" "/cache/abc123/k6" syscall.ENOENT).
    split; reflexivity.
  - reflexivity.
  - injection Hrt as <-. apply Hfile. reflexivity.
Defined.

(** X11: after a failed download [GetBinary] returns without closing the
    file it opened: the log holds the open of the binary and no close. *)
Theorem GetBinary_leaves_target_open (p : provider) (r : GoMap.RangeOrder)
    (deps : k6deps.Dependencies) (out : Outside) (st : State)
    (artifact : k6build.Artifact) (err : error) :
  reachesDownload p r deps out st artifact →
  (downloadStep p r deps out st artifact).1 = Some err →
  EvOpenFile (binPathOf p artifact) openFlag openPerm
    ∈ logged st (GetBinary p r deps out st).2
  ∧ Forall (λ e, ∀ q, e ≠ EvClose q) (logged st (GetBinary p r deps out st).2).
Proof.
  intros Hreach Hdl.
  destruct (reachesDownload_miss _ _ _ _ _ _ Hreach) as (Hmiss & Hmk & Hop & _).
  rewrite (GetBinary_on_miss _ _ _ _ _ _ Hmiss), Hmk, Hop, Hdl. cbn [snd].
  destruct (downloadStep_log p r deps out st artifact) as (devs & Hlog & Hdevs).
  rewrite (logged_app st _
             ([buildEvent p r deps; EvStat (binPathOf p artifact);
               EvMkdirAll (artifactDirOf p artifact) syscall.S_IRWXU;
               EvOpenFile (binPathOf p artifact) openFlag openPerm]
              ++ devs ++ [EvRemoveAll (artifactDirOf p artifact)])).
  2:{ rewrite removeStep_log, Hlog. by rewrite <- !app_assoc. }
  split; [cbn [app]; by repeat constructor|].
  destruct Hdevs as [->|[->|[->|[data ->]]]]; cbv [app];
    repeat constructor; done.
Qed.

Lemma GetBinary_leaves_target_open_witness :
  EvClose "/cache/abc123/k6"
  ∉ logged Scenario.fresh
      (GetBinary Scenario.prov Scenario.forward Scenario.deps
         (Scenario.calm (inl (Scenario.response 500 "" None)))
         Scenario.fresh).2.
Proof.
  destruct (GetBinary_leaves_target_open Scenario.prov Scenario.forward
              Scenario.deps
              (Scenario.calm (inl (Scenario.response 500 "" None)))
              Scenario.fresh Scenario.artifact
              (Errorf_ws (New ErrDownload) "https://svc/abc123/k6"))
    as [_ Hnone].
  - split; [reflexivity|]. split; [|split; reflexivity].
    exists (PathError "stat" "/cache/abc123/k6" syscall.ENOENT).
    split; reflexivity.
  - reflexivity.
  - intros Hin. rewrite Forall_forall in Hnone.
    exact (Hnone _ Hin "/cache/abc123/k6"%string eq_refl).
Defined.

(** ** GetBinary: the next call *)

(** After a successful download the binary is a file and nothing on the
    way to it is one. *)
Lemma installed_state p r deps out st artifact :
  reachesDownload p r deps out st artifact →
  (downloadStep p r deps out st artifact).1 = None →
  (∃ m data, fs (closeStep p r deps out st artifact).2 !! binPathOf p artifact
             = Some (File m data))
  ∧ existsb (isFile (fs (closeStep p r deps out st artifact).2))
            (filepath.ancestors (binPathOf p artifact)) = false.
Proof.
  intros Hreach Hdl.
  destruct (reachesDownload_miss _ _ _ _ _ _ Hreach) as (Hmiss & Hmk & Hop & Hne).
  rewrite closeStep_state. cbn [fs withLog]. split.
  - destruct (openStep_file _ _ _ _ _ _ _ Hop) as (m & data & Hf).
    unfold downloadStep.
    destruct (download_keeps_file p (k6build.URL artifact) _ out _ m data Hf)
      as [data' ->].
    by eexists _, _.
  - rewrite ancestors_binPath by done. apply existsb_false. intros q Hq.
    assert (Hqb : q ≠ binPathOf p artifact).
    { intros ->. by apply (binPath_not_upTo p artifact). }
    unfold isFile, downloadStep. rewrite download_frame by done.
    unfold openStep. rewrite os_OpenFile_frame by done.
    unfold mkdirStep in *. destruct (os_MkdirAll_made _ _ _ _ Hmk) as [-> Hnf].
    rewrite foldl_mkdirOne_lookup.
    rewrite existsb_false in Hnf. specialize (Hnf q Hq). unfold isFile in Hnf.
    destruct (fs _ !! q) as [[?|? ?]|]; [done|done|].
    by rewrite decide_True.
Qed.

Lemma os_Stat_none path out st :
  stat_err out path = None →
  existsb (isFile (fs st)) (filepath.ancestors path) = false →
  is_Some (fs st !! path) →
  (os_Stat path out st).1 = None.
Proof.
  intros Hs Ha [n Hn]. unfold os_Stat. unfold_M. simpl.
  by rewrite Hs, Ha, Hn.
Qed.

(** X12: a successful download fills the cache for the next call.  When
    [GetBinary] has downloaded the binary and is called again in the
    state it left, and the build service returns the same artifact and
    stat is not refused, the second call is a cache hit: it returns the
    same result, makes no call besides build and stat, and changes
    nothing. *)
Theorem GetBinary_then_cache_hit (p : provider) (r r' : GoMap.RangeOrder)
    (deps : k6deps.Dependencies) (out out' : Outside) (st : State)
    (artifact : k6build.Artifact) :
  reachesDownload p r deps out st artifact →
  (downloadStep p r deps out st artifact).1 = None →
  buildResult p r' deps = inl artifact →
  stat_err out' (binPathOf p artifact) = None →
  (GetBinary p r' deps out' (GetBinary p r deps out st).2).1
  = (GetBinary p r deps out st).1
  ∧ fs (GetBinary p r' deps out' (GetBinary p r deps out st).2).2
    = fs (GetBinary p r deps out st).2
  ∧ logged (GetBinary p r deps out st).2
           (GetBinary p r' deps out' (GetBinary p r deps out st).2).2
    = [buildEvent p r' deps; EvStat (binPathOf p artifact)].
Proof.
  intros Hreach Hdl Hb' Hstat.
  destruct (installed_state _ _ _ _ _ _ Hreach Hdl) as [(m & data & Hfile) Hanc].
  destruct (reachesDownload_miss _ _ _ _ _ _ Hreach) as (Hmiss & Hmk & Hop & _).
  rewrite (GetBinary_on_miss _ _ _ _ _ _ Hmiss), Hmk, Hop, Hdl. cbn [fst snd].
  rewrite (GetBinary_stat_hit p r' deps out' _ artifact Hb').
  - cbn [fst snd fs]. split; [done|]. split; [done|]. by apply logged_app.
  - apply os_Stat_none; [done|done|]. rewrite Hfile. by eexists.
Qed.

Lemma GetBinary_then_cache_hit_witness :
  (GetBinary Scenario.prov Scenario.backward Scenario.deps
     (Scenario.calm (inr (Foreign "unreachable")))
     (GetBinary Scenario.prov Scenario.forward Scenario.deps
        (Scenario.calm (inl (Scenario.response 200 "ELF" None)))
        Scenario.fresh).2).1
  = (Scenario.binary, None).
Proof.
  destruct (GetBinary_then_cache_hit Scenario.prov Scenario.forward
              Scenario.backward Scenario.deps
              (Scenario.calm (inl (Scenario.response 200 "ELF" None)))
              (Scenario.calm (inr (Foreign "unreachable")))
              Scenario.fresh Scenario.artifact)
    as (Hres & _ & _).
  - split; [reflexivity|]. split; [|split; reflexivity].
    exists (PathError "stat" "/cache/abc123/k6" syscall.ENOENT).
    split; reflexivity.
  - reflexivity.
  - reflexivity.
  - reflexivity.
  - rewrite Hres. reflexivity.
Defined.

(** ** buildDeps: the k6 entry *)

Lemma filter_split_length {A} (P : A → Prop) `{!∀ x, Decision (P x)}
    (l : list A) :
  length (filter P l) + length (filter (λ x, ¬ P x) l) = length l.
Proof.
  induction l as [|x l IH]; [done|].
  rewrite !filter_cons. destruct (decide (P x)), (decide (¬ P x)); simpl;
    try done; lia.
Qed.

(** X13: when the dependency map stores its entries under their names and
    has an entry for k6, [buildDeps] returns that entry's constraint as
    the k6 constraint, whatever the iteration order, and the auxiliary
    list has one entry fewer than the map. *)
Theorem buildDeps_primary_constraint (r : GoMap.RangeOrder)
    (deps : k6deps.Dependencies) (d : k6deps.Dependency) :
  k6deps.keyedByName deps →
  GoMap.get deps k6Module = Some d →
  (buildDeps r deps).1 = k6deps.Constraints d
  ∧ S (length (buildDeps r deps).2) = length (GoMap.entries deps).
Proof.
  intros Hkey Hd. rewrite buildDeps_spec. cbn [fst snd].
  assert (Hname : k6deps.Name d = k6Module).
  { by apply (proj1 (keyedByName_lookup deps) Hkey k6Module d). }
  assert (Hone : filter isPrimary ((GoMap.range r deps).*2) = [d]).
  { assert (Hin : d ∈ filter isPrimary ((GoMap.range r deps).*2)).
    { apply list_elem_of_filter. split; [done|].
      apply list_elem_of_fmap. exists (k6Module, d). split; [done|].
      rewrite (range_perm r deps). by apply entries_get. }
    assert (Hlen : length (filter isPrimary ((GoMap.range r deps).*2)) ≤ 1).
    { apply primary_at_most_once; [apply range_NoDup_keys|].
      unfold k6deps.keyedByName in Hkey. by rewrite (range_perm r deps). }
    destruct (filter isPrimary _) as [|x [|y l]]; simpl in Hlen.
    - by apply elem_of_nil in Hin.
    - apply list_elem_of_singleton in Hin. by subst.
    - lia. }
  split.
  - unfold primaryOf. by rewrite Hone.
  - unfold auxiliaryOf. rewrite length_fmap.
    pose proof (filter_split_length isPrimary ((GoMap.range r deps).*2)) as Hs.
    rewrite Hone, length_fmap in Hs. simpl in Hs.
    rewrite <- (Permutation_length (range_perm r deps)). lia.
Qed.

Lemma buildDeps_primary_constraint_witness :
  (buildDeps Scenario.backward Scenario.deps).1 = ">=0.50.0"%string.
Proof.
  apply (buildDeps_primary_constraint Scenario.backward Scenario.deps
           (Scenario.dep "k6" ">=0.50.0")).
  - unfold k6deps.keyedByName. apply (bool_decide_unpack _). vm_compute. exact I.
  - reflexivity.
Defined.

(** ** UnmarshalDeps: two runs *)



(** ** NewProvider and NewDefaultProvider *)

Lemma NewProvider_finish_result env config binDir httpClient :
  (∃ p, NewProvider_finish env config binDir httpClient = (Some p, None)
        ∧ client p = httpClient ∧ bidDir p = binDir
        ∧ platform p
          = (if bool_decide (Platform config = ""%string)
             then GOOS env +:+ "/" +:+ GOARCH env else Platform config)
        ∧ NewBuildServiceClient env
            (if bool_decide (BuildServiceURL config = ""%string)
             then Getenv env "K6_BUILD_SERVICE_URL" else BuildServiceURL config)
          = inl (buildSrv p))
  ∨ (∃ err, NewProvider_finish env config binDir httpClient = (None, Some err)
            ∧ NewBuildServiceClient env
                (if bool_decide (BuildServiceURL config = ""%string)
                 then Getenv env "K6_BUILD_SERVICE_URL"
                 else BuildServiceURL config)
              = inr err).
Proof.
  unfold NewProvider_finish.
  destruct (NewBuildServiceClient env _) as [srv|err].
  - left. eexists. by repeat split.
  - right. by exists err.
Qed.

(** X15: [NewProvider] returns either a provider and no error, or no
    provider and an error, never both and never neither. *)
Theorem NewProvider_provider_xor_error (env : Env) (config : Config) :
  (∃ p, NewProvider env config = (Some p, None))
  ∨ (∃ err, NewProvider env config = (None, Some err)).
Proof.
  unfold NewProvider.
  set (binDir := if bool_decide (BinDir config = ""%string) then _ else _).
  destruct (bool_decide (_ ≠ ""%string)).
  - destruct (url_Parse env _) as [parsed|err]; [|right; by eexists].
    destruct (NewProvider_finish_result env config binDir (ProxyClient parsed))
      as [(p & -> & _)|(err & -> & _)]; [left|right]; by eexists.
  - destruct (NewProvider_finish_result env config binDir DefaultClient)
      as [(p & -> & _)|(err & -> & _)]; [left|right]; by eexists.
Qed.

Lemma Join_nonempty e rest :
  e ≠ ""%string → filepath.Join (e :: rest) ≠ ""%string.
Proof.
  intros He. rewrite Join_cons, bool_decide_eq_false_2 by done.
  apply Clean_nonempty.
Qed.

Lemma string_app_nonempty_r (a b : string) : b ≠ ""%string → a +:+ b ≠ ""%string.
Proof.
  intros Hb H. apply (f_equal String.length) in H.
  rewrite string_length_app in H. destruct b; [done|]. simpl in H. lia.
Qed.

(** X16: a provider returned by [NewProvider] has a non-empty binary
    directory and a non-empty platform: the configured ones when given,
    the defaults otherwise.  So the artifact directory of such a provider
    is never the empty path, for any artifact. *)
Theorem NewProvider_fields (env : Env) (config : Config) (p : provider) :
  (NewProvider env config).1 = Some p →
  bidDir p ≠ ""%string
  ∧ platform p ≠ ""%string
  ∧ bidDir p
    = (if bool_decide (BinDir config = ""%string)
       then filepath.Join [TempDir env; "k6provider"%string; "cache"%string]
       else BinDir config)
  ∧ platform p
    = (if bool_decide (Platform config = ""%string)
       then GOOS env +:+ "/" +:+ GOARCH env else Platform config)
  ∧ ∀ artifact, artifactDirOf p artifact ≠ ""%string.
Proof.
  unfold NewProvider.
  set (binDir := if bool_decide (BinDir config = ""%string) then _ else _).
  assert (HbinDir : binDir ≠ ""%string).
  { subst binDir. destruct (bool_decide (BinDir config = ""%string)) eqn:Hb.
    - rewrite Join_cons. destruct (bool_decide (TempDir env = ""%string)).
      + by apply Join_nonempty.
      + apply Clean_nonempty.
    - by apply bool_decide_eq_false in Hb. }
  assert (Hfin : ∀ c, (NewProvider_finish env config binDir c).1 = Some p →
            bidDir p ≠ ""%string ∧ platform p ≠ ""%string ∧ bidDir p = binDir
            ∧ platform p
              = (if bool_decide (Platform config = ""%string)
                 then GOOS env +:+ "/" +:+ GOARCH env else Platform config)
            ∧ ∀ artifact, artifactDirOf p artifact ≠ ""%string).
  { intros c Hc.
    destruct (NewProvider_finish_result env config binDir c)
      as [(p' & Heq & _ & Hdir & Hplat & _)|(err & Heq & _)];
      rewrite Heq in Hc; [|done]. injection Hc as ->.
    rewrite Hdir, Hplat. repeat split; try done.
    - destruct (bool_decide (Platform config = ""%string)) eqn:Hp.
      + by apply string_app_nonempty_r.
      + by apply bool_decide_eq_false in Hp.
    - intros artifact. unfold artifactDirOf. rewrite Hdir.
      by apply Join_nonempty. }
  destruct (bool_decide (_ ≠ ""%string)); [|by apply Hfin].
  destruct (url_Parse env _) as [parsed|err]; [by apply Hfin|done].
Qed.

Lemma NewProvider_fields_witness :
  artifactDirOf Cases.defaultProv Scenario.artifact ≠ ""%string
  ∧ bidDir Cases.defaultProv
    = filepath.Join ["/tmp"; "k6provider"; "cache"]%string.
Proof.
  destruct (NewProvider_fields (Scenario.env "") Scenario.config
              Cases.defaultProv)
    as (_ & _ & Hdir & _ & Hart).
  - reflexivity.
  - split; [apply Hart | exact Hdir].
Defined.

(** X17: a configuration that sets every field decides the provider alone:
    with it [NewProvider] gives the same result in two environments that
    differ in their variables, temporary directory and platform, as long
    as the URL parser and the build service client are the same. *)
Theorem NewProvider_config_over_env (env env' : Env) (config : Config) :
  Platform config ≠ ""%string →
  BinDir config ≠ ""%string →
  BuildServiceURL config ≠ ""%string →
  DownloadProxyURL config ≠ ""%string →
  url_Parse env = url_Parse env' →
  NewBuildServiceClient env = NewBuildServiceClient env' →
  NewProvider env config = NewProvider env' config.
Proof.
  intros Hp Hb Hs Hx Hparse Hclient.
  unfold NewProvider, NewProvider_finish.
  rewrite !(bool_decide_eq_false_2 (BinDir config = ""%string)) by done.
  rewrite !(bool_decide_eq_false_2 (DownloadProxyURL config = ""%string)) by done.
  rewrite !(bool_decide_eq_false_2 (BuildServiceURL config = ""%string)) by done.
  rewrite !(bool_decide_eq_false_2 (Platform config = ""%string)) by done.
  by rewrite Hparse, Hclient.
Qed.

Lemma NewProvider_config_over_env_witness :
  NewProvider (Scenario.env ":3128") Cases.fullConfig
  = NewProvider (Scenario.env "") Cases.fullConfig.
Proof.
  apply (NewProvider_config_over_env (Scenario.env ":3128") (Scenario.env "")
           Cases.fullConfig); try reflexivity; vm_compute; discriminate.
Defined.

(** X18: a provider returned by [NewDefaultProvider] is made from the
    environment alone: its directory is cache under k6provider under the
    temporary directory, its platform is GOOS/GOARCH, its build service
    client is the one for K6_BUILD_SERVICE_URL, and its HTTP client is the
    default one when K6_DOWNLOAD_PROXY is empty and otherwise one that
    goes through that proxy, which then has parsed. *)
Theorem NewDefaultProvider_from_env (env : Env) (p : provider) :
  (NewDefaultProvider env).1 = Some p →
  bidDir p = filepath.Join [TempDir env; "k6provider"%string; "cache"%string]
  ∧ platform p = GOOS env +:+ "/" +:+ GOARCH env
  ∧ NewBuildServiceClient env (Getenv env "K6_BUILD_SERVICE_URL")
    = inl (buildSrv p)
  ∧ (if bool_decide (Getenv env "K6_DOWNLOAD_PROXY" = ""%string)
     then client p = DefaultClient
     else ∃ parsed, url_Parse env (Getenv env "K6_DOWNLOAD_PROXY") = inl parsed
                    ∧ client p = ProxyClient parsed).
Proof.
  unfold NewDefaultProvider, NewProvider. cbn [Config_zero BinDir DownloadProxyURL].
  rewrite !(bool_decide_eq_true_2 (""%string = ""%string)) by done.
  set (binDir := filepath.Join _).
  assert (Hfin : ∀ c, (NewProvider_finish env Config_zero binDir c).1 = Some p →
            bidDir p = binDir
            ∧ platform p = GOOS env +:+ "/" +:+ GOARCH env
            ∧ NewBuildServiceClient env (Getenv env "K6_BUILD_SERVICE_URL")
              = inl (buildSrv p)
            ∧ client p = c).
  { intros c Hc.
    destruct (NewProvider_finish_result env Config_zero binDir c)
      as [(p' & Heq & Hcl & Hdir & Hplat & Hsrv)|(err & Heq & _)];
      rewrite Heq in Hc; [|done]. injection Hc as ->. by repeat split. }
  destruct (bool_decide (Getenv env "K6_DOWNLOAD_PROXY" = ""%string)) eqn:Hx.
  - rewrite bool_decide_eq_false_2.
    2:{ apply bool_decide_eq_true in Hx. by intros ?. }
    intros Hp. destruct (Hfin _ Hp) as (? & ? & ? & ?). by repeat split.
  - rewrite bool_decide_eq_true_2 by by apply bool_decide_eq_false in Hx.
    destruct (url_Parse env _) as [parsed|err] eqn:Hparse; [|done].
    intros Hp. destruct (Hfin _ Hp) as (? & ? & ? & ?).
    repeat split; try done. by exists parsed.
Qed.

Lemma NewDefaultProvider_from_env_witness :
  platform Cases.defaultProv = "linux/amd64"%string
  ∧ client Cases.defaultProv = DefaultClient.
Proof.
  destruct (NewDefaultProvider_from_env (Scenario.env "") Cases.defaultProv)
    as (_ & Hplat & _ & Hclient).
  - reflexivity.
  - split; [exact Hplat | exact Hclient].
Defined.

(** ** The earlier revision *)

(** X19: the current [GetBinary] extends the earlier one: on every input the
    earlier revision returns the Path of what the current one returns
    (empty on error), with the same error and the same effects. *)
Theorem Earlier_GetBinary_agrees (p : provider) (r : GoMap.RangeOrder)
    (deps : k6deps.Dependencies) (out : Outside) (st : State) :
  Earlier.GetBinary p r deps out st
  = ((Path (GetBinary p r deps out st).1.1, (GetBinary p r deps out st).1.2),
     (GetBinary p r deps out st).2).
Proof.
  unfold Earlier.GetBinary, GetBinary. destruct (buildDeps r deps) as [c bs].
  unfold BuildService_Build. unfold_M. simpl.
  destruct (buildSrv p (platform p) c bs) as [artifact|e]; [|done].
  destruct (os_Stat _ out _) as [[e|] st2]; [|done].
  destruct (os_IsNotExist e); simpl; [|done].
  destruct (os_MkdirAll _ _ out st2) as [[e1|] st3]; [done|].
  destruct (os_OpenFile _ _ _ out st3) as [[target|e2] st4]; [|done].
  destruct (download p _ target out st4) as [[e3|] st5].
  - by destruct (os_RemoveAll _ out st5).
  - done.
Qed.

(** X20: for a configuration that names its binary directory, in an
    environment without download proxy, the current [NewProvider] returns
    what the earlier one returns when given no HTTP client. *)
Theorem NewProvider_agrees_with_earlier (env : Env) (config : Config) :
  BinDir config ≠ ""%string →
  effectiveProxyURL env config = ""%string →
  NewProvider env config
  = Earlier.NewProvider env
      {| Earlier.Platform := Platform config;
         Earlier.Client := None;
         Earlier.BinDir := BinDir config;
         Earlier.BuildServiceURL := BuildServiceURL config |}.
Proof.
  unfold effectiveProxyURL, NewProvider, Earlier.NewProvider, NewProvider_finish.
  intros Hb Hx. cbn [Earlier.Platform Earlier.Client Earlier.BinDir
                     Earlier.BuildServiceURL].
  rewrite !(bool_decide_eq_false_2 (BinDir config = ""%string)) by done.
  rewrite Hx. by rewrite bool_decide_eq_false_2 by by intros ?.
Qed.

Lemma NewProvider_agrees_with_earlier_witness :
  NewProvider (Scenario.env "") Cases.plainConfig
  = Earlier.NewProvider (Scenario.env "") Cases.earlierConfig.
Proof.
  apply (NewProvider_agrees_with_earlier (Scenario.env "") Cases.plainConfig).
  - vm_compute. discriminate.
  - reflexivity.
Defined.

(** ** An artifact without ID *)

Lemma Clean_render_slash rooted out :
  cleanStack rooted out →
  filepath.Clean (filepath.render rooted (reverse out) +:+ "/" +:+ "")
  = filepath.render rooted (reverse out).
Proof.
  intros Hout. pose proof (cleanStack_elems rooted out Hout) as Hes.
  unfold filepath.Clean. rewrite isRooted_render by done. f_equal.
  rewrite Split_app_slash, cleanElems_render by done.
  rewrite cleanElems_fixed by done. reflexivity.
Qed.

(** X21: when the build service returns an artifact whose ID is empty, the
    artifact directory is the binary directory itself (given in cleaned
    form); a failed download whose clean-up succeeds then removes the
    binary directory with everything in it, the binaries of other
    artifacts included. *)
Theorem GetBinary_empty_ID (p : provider) (r : GoMap.RangeOrder)
    (deps : k6deps.Dependencies) (out : Outside) (st : State)
    (artifact : k6build.Artifact) (x : string) (err : error) (q : string) :
  bidDir p = filepath.Clean x →
  k6build.ID artifact = ""%string →
  reachesDownload p r deps out st artifact →
  (downloadStep p r deps out st artifact).1 = Some err →
  (removeStep p r deps out st artifact).1 = None →
  filepath.inside (bidDir p) q = true →
  artifactDirOf p artifact = bidDir p
  ∧ fs (GetBinary p r deps out st).2 !! q = None.
Proof.
  intros Hclean Hid Hreach Hdl Hrm Hq.
  assert (Hdir : artifactDirOf p artifact = bidDir p).
  { unfold artifactDirOf. rewrite Hid, Hclean.
    rewrite Join_cons, bool_decide_eq_false_2 by apply Clean_nonempty.
    change (String.concat "/" [filepath.Clean x; ""%string])
      with (filepath.Clean x +:+ "/" +:+ "").
    destruct (Clean_shape x) as (o & -> & Ho). by apply Clean_render_slash. }
  split; [done|].
  destruct (GetBinary_download_error p r deps out st artifact err Hreach Hdl)
    as [-> Hne].
  cbn [snd]. unfold removeStep in *.
  apply os_RemoveAll_gone_below; [done|done|]. by rewrite Hdir.
Qed.

Lemma GetBinary_empty_ID_witness :
  fs (GetBinary Cases.provNoID Scenario.forward Scenario.deps
        (Scenario.calm (inl (Scenario.response 500 "" None)))
        Cases.shared).2 !! "/cache/other/k6"%string
  = None.
Proof.
  apply (GetBinary_empty_ID Cases.provNoID Scenario.forward Scenario.deps
           (Scenario.calm (inl (Scenario.response 500 "" None)))
           Cases.shared Cases.noID "/cache"
           (Errorf_ws (New ErrDownload) "https://svc/k6") "/cache/other/k6").
  - reflexivity.
  - reflexivity.
  - split; [reflexivity|]. split; [|split; reflexivity].
    exists (PathError "stat" "/cache/k6" syscall.ENOENT). split; reflexivity.
  - reflexivity.
  - reflexivity.
  - reflexivity.
Defined.
